(** * Azurite blob handlers: a shallow embedding of the handler layer

    The development follows three TypeScript classes of the blob service:
    - [ContainerHandler]  (container lifecycle and the two blob listings),
    - [ServiceHandler]    (service properties, container listing, stubs),
    - [BaseBlobHandler]   (validation of a copy source).

    Handlers are thin: they read the request context, call the metadata
    store or the network, and build a response object.  The store, the
    network, the etag generator and the XML/URL parsers are collaborators
    that live outside these classes; they are gathered in a record [Env]
    and every handler is a function of it.  Calls to the store and to the
    network are written to a trace carried by the [World], so that "what
    was handed to the store" and "no request was sent" are plain facts
    about that trace. *)

From Stdlib Require Import ZArith String Ascii List Lia.
From stdpp Require Import base option list strings gmap pretty.

Open Scope Z_scope.
Open Scope string_scope.

(* ===================================================================== *)
(** ** JavaScript primitives used by the handlers *)
(* ===================================================================== *)

Module Js.

(** [x || d] on an optional string: [undefined] and [""] are falsy. *)
Definition str_or (x : option string) (d : string) : string :=
  match x with
  | Some EmptyString => d
  | Some s => s
  | None => d
  end.

(** [x || d] on an optional number: [undefined] and [0] are falsy. *)
Definition num_or (x : option Z) (d : Z) : Z :=
  match x with
  | Some 0 => d
  | Some n => n
  | None => d
  end.

(** [s.length]. *)
Definition length (s : string) : Z := Z.of_nat (String.length s).

(** Drop the first [n] characters. *)
Fixpoint skip (n : nat) (s : string) : string :=
  match n, s with
  | O, _ => s
  | S _, EmptyString => EmptyString
  | S n', String _ s' => skip n' s'
  end.

(** First position [>= k] at which [search] occurs, where [s] is the
    part of the subject that starts at position [k]. *)
Fixpoint scan (search s : string) (k : nat) : option nat :=
  if String.prefix search s then Some k
  else match s with
       | EmptyString => None
       | String _ s' => scan search s' (S k)
       end.

(** [s.indexOf(search, position)]: the position is clamped to
    [0 .. s.length]; the answer is [-1] when there is no occurrence. *)
Definition indexOf (s search : string) (position : Z) : Z :=
  let start := Nat.min (Z.to_nat position) (String.length s) in
  match scan search (skip start s) start with
  | Some i => Z.of_nat i
  | None => -1
  end.

(** [s.substr(start, len)]: a negative [start] counts from the end, a
    non-positive [len] gives the empty string. *)
Definition substr (s : string) (start len : Z) : string :=
  let from := if (start <? 0)%Z then Z.max (length s + start) 0 else start in
  if (len <=? 0)%Z then EmptyString
  else String.substring (Z.to_nat from) (Z.to_nat len) s.

(** [s.replace(/\n+/gm, "")]: every line feed is removed. *)
Fixpoint strip_newlines (s : string) : string :=
  match s with
  | EmptyString => EmptyString
  | String c s' =>
      if Ascii.eqb c "010"%char then strip_newlines s'
      else String c (strip_newlines s')
  end.

(** White space skipped by [parseInt]: TAB, LF, VT, FF, CR and space. *)
Definition is_space (c : ascii) : bool :=
  let n := nat_of_ascii c in
  ((9 <=? n)%nat && (n <=? 13)%nat) || (n =? 32)%nat.

Definition digit_of (c : ascii) : option Z :=
  let n := nat_of_ascii c in
  if ((48 <=? n)%nat && (n <=? 57)%nat)%bool then Some (Z.of_nat n - 48)
  else None.

Fixpoint trim_start (s : string) : string :=
  match s with
  | String c s' => if is_space c then trim_start s' else s
  | EmptyString => s
  end.

(** Value of the longest prefix of decimal digits; [acc] is [None]
    until a first digit has been read. *)
Fixpoint digits (s : string) (acc : option Z) : option Z :=
  match s with
  | EmptyString => acc
  | String c s' =>
      match digit_of c with
      | Some d => digits s' (Some (10 * default 0 acc + d))
      | None => acc
      end
  end.

(** [parseInt(s, 10)]; [None] stands for [NaN].  The value is kept as
    an exact integer. *)
Definition parseInt10 (s : string) : option Z :=
  match trim_start s with
  | String "-"%char s' => Z.opp <$> digits s' None
  | String "+"%char s' => digits s' None
  | s' => digits s' None
  end.

(** A [Set<string>] keeps its elements in insertion order and ignores
    an element it already holds. *)
Definition set_add (x : string) (s : list string) : list string :=
  if decide (x ∈ s) then s else s ++ [x].

End Js.

(* ===================================================================== *)
(** ** Failures *)
(* ===================================================================== *)

(** Errors built by [StorageErrorFactory]; the store raises its own
    (container not found, lease conflicts, ...), kept here by code. *)
Inductive StorageError : Type :=
| InvalidHeaderValue (requestID HeaderName HeaderValue : string)
| CannotVerifyCopySource (requestID : string) (statusCode : Z) (message : string)
| StoreFailure (code : string) (statusCode : Z).

(** What a handler can throw. *)
Inductive Exn : Type :=
| Storage (e : StorageError)          (* a typed storage error *)
| PlainError (message : string)       (* [new Error(message)] *)
| AxiosRejected (status : option Z).  (* the HTTP client rejected *)

Inductive Outcome (A : Type) : Type :=
| Returned (a : A)
| Threw (e : Exn).
Arguments Returned {A} a.
Arguments Threw {A} e.

(* ===================================================================== *)
(** ** Models exchanged with the metadata store *)
(* ===================================================================== *)

Inductive LeaseStatusType := Locked | Unlocked.
Inductive LeaseStateType := Available | Leased | Expired | Breaking | Broken.
Inductive PublicAccessType := PublicContainer | PublicBlob.
Inductive ListBlobsIncludeItem :=
  Copy | Deleted | Metadata | Snapshots | Uncommittedblobs.

#[global] Instance ListBlobsIncludeItem_eq_dec : EqDecision ListBlobsIncludeItem.
Proof. solve_decision. Defined.

Module BlobModel.
Record t := mk
  { name : string;
    snapshot : string;
    deleted : option bool }.
End BlobModel.

Module ContainerProperties.
Record t := mk
  { etag : string;
    lastModified : Z;
    leaseStatus : LeaseStatusType;
    leaseState : LeaseStateType;
    publicAccess : option PublicAccessType;
    hasImmutabilityPolicy : bool;
    hasLegalHold : bool }.
End ContainerProperties.

Module ContainerModel.
Record t := mk
  { accountName : string;
    metadata : option (gmap string string);
    name : string;
    properties : ContainerProperties.t }.
End ContainerModel.

Module SignedIdentifier.
Record t := mk
  { id : string;
    start : option string;
    expiry : option string;
    permission : option string }.
End SignedIdentifier.

Module ContainerACL.
Record t := mk
  { lastModified : Z;
    etag : string;
    publicAccess : option PublicAccessType;
    containerAcl : option (list SignedIdentifier.t);
    leaseAccessConditions : option (option string) }.
End ContainerACL.

Module RetentionPolicy.
Record t := mk { enabled : bool; days : option Z }.
End RetentionPolicy.

Module Metrics.
Record t := mk
  { enabled : bool;
    retentionPolicy : option RetentionPolicy.t;
    version : option string;
    includeAPIs : option bool }.
End Metrics.

Module Logging.
Record t := mk
  { deleteProperty : bool;
    read : bool;
    retentionPolicy : RetentionPolicy.t;
    version : string;
    write : bool }.
End Logging.

Module StaticWebsite.
Record t := mk
  { enabled : bool;
    indexDocument : option string;
    errorDocument404Path : option string }.
End StaticWebsite.

Module CorsRule.
Record t := mk
  { allowedOrigins : string;
    allowedMethods : string;
    allowedHeaders : string;
    exposedHeaders : string;
    maxAgeInSeconds : Z }.
End CorsRule.

(** [Models.StorageServiceProperties]: every field is optional. *)
Module StorageServiceProperties.
Record t := mk
  { cors : option (list CorsRule.t);
    defaultServiceVersion : option string;
    hourMetrics : option Metrics.t;
    logging : option Logging.t;
    minuteMetrics : option Metrics.t;
    staticWebsite : option StaticWebsite.t }.
End StorageServiceProperties.

(** The record kept by the store: the properties and their account. *)
Module ServicePropertiesModel.
Record t := mk
  { accountName : string;
    props : StorageServiceProperties.t }.
End ServicePropertiesModel.

(* ===================================================================== *)
(** ** The metadata store and the network, seen from a handler *)
(* ===================================================================== *)

(** One constructor per store method the handlers below call, with the
    arguments in the order of the call. *)
Inductive StoreCall : Type :=
| createContainer (container : ContainerModel.t)
| setContainerMetadata (account container : string) (lastModified : Z)
    (etag : string) (metadata : option (gmap string string))
| setContainerACL (account container : string) (acl : ContainerACL.t)
| checkContainerExist (account container : string)
| listBlobs (account container : string) (blob : option string)
    (prefix : option string) (maxresults : option Z)
    (marker : option string) (includeSnapshots : bool)
| listContainers (account prefix : string) (maxresults : Z)
    (marker : option Z)
| getServiceProperties (account : string)
| setServiceProperties (p : ServicePropertiesModel.t).

(** What each method resolves to. *)
Definition Reply (c : StoreCall) : Type :=
  match c with
  | listBlobs _ _ _ _ _ _ _ => (list BlobModel.t * option string)%type
  | listContainers _ _ _ _ => (list ContainerModel.t * option Z)%type
  | getServiceProperties _ => option ServicePropertiesModel.t
  | _ => unit
  end.

Module HttpResponse.
Record t := mk
  { status : Z;
    headers : gmap string string;
    data : string }.
End HttpResponse.

Module URL.
Record t := mk { host : string; href : string }.
End URL.

Inductive Event : Type :=
| CallStore (c : StoreCall)
| HttpGet (url : string) (headers : gmap string string).

(** The collaborators of the handler classes.  [S] is the state of the
    metadata store, whatever its engine. *)
Record Env (S : Type) : Type := mkEnv
  { (* [this.metadataStore] *)
    metadataStore : forall c : StoreCall, S -> Outcome (Reply c) * S;
    (* the value [newEtag()] yields at its n-th call *)
    etagOf : nat -> string;
    (* constants of [utils/constants] *)
    BLOB_API_VERSION : string;
    CONTENT_TYPE : string;
    RANGE : string;
    (* [parseXML]: the child elements of the root, by name *)
    parseXML : string -> gmap string string;
    (* [new URL(s)]; [None] when the constructor throws *)
    newURL : string -> option URL.t;
    (* [URLBuilder.parse(u)] then [setQueryParameter(k, v)] then [toString()] *)
    withQueryParameter : string -> string -> string -> string;
    (* the answer of the network to a GET, [None] when there is none *)
    transport : string -> gmap string string -> option HttpResponse.t }.
Arguments metadataStore {S} _ _ _.
Arguments etagOf {S} _ _.
Arguments BLOB_API_VERSION {S} _.
Arguments CONTENT_TYPE {S} _.
Arguments RANGE {S} _.
Arguments parseXML {S} _ _.
Arguments newURL {S} _ _.
Arguments withQueryParameter {S} _ _ _ _.
Arguments transport {S} _ _ _.

Record World (S : Type) : Type := mkWorld
  { store : S;
    issued : nat;          (* number of etags generated so far *)
    trace : list Event }.  (* store calls and requests, oldest first *)
Arguments mkWorld {S} _ _ _.
Arguments store {S} _.
Arguments issued {S} _.
Arguments trace {S} _.

(** A handler body: it runs in a world and returns or throws. *)
Definition M (S A : Type) : Type := World S -> Outcome A * World S.

Section Monad.
Context {S : Type}.

Definition ret {A} (a : A) : M S A := fun w => (Returned a, w).

Definition throw {A} (e : Exn) : M S A := fun w => (Threw e, w).

Definition bind {A B} (m : M S A) (k : A -> M S B) : M S B :=
  fun w =>
    match m w with
    | (Returned a, w') => k a w'
    | (Threw e, w') => (Threw e, w')
    end.

Definition record (e : Event) (w : World S) : World S :=
  mkWorld (store w) (issued w) (trace w ++ [e]).
End Monad.

#[global] Instance M_ret {S} : MRet (M S) := fun _ a => ret a.
#[global] Instance M_bind {S} : MBind (M S) := fun _ _ k m => bind m k.

Section Collaborators.
Context {S : Type} (env : Env S).

(** [await this.metadataStore.method(args)]. *)
Definition callStore (c : StoreCall) : M S (Reply c) :=
  fun w =>
    let (r, s') := metadataStore env c (store w) in
    (r, mkWorld s' (issued w) (trace w ++ [CallStore c])).

(** [newEtag()]. *)
Definition newEtag : M S string :=
  fun w => (Returned (etagOf env (issued w)),
            mkWorld (store w) (Datatypes.S (issued w)) (trace w)).

(** [axios.get(url, { headers, validateStatus })].  The client settles
    a response by its status: it resolves when the status is [0] or
    [validateStatus] accepts it, and rejects otherwise; without any
    response it rejects. *)
Definition axios_get (url : string) (headers : gmap string string)
    (validateStatus : Z -> bool) : M S HttpResponse.t :=
  fun w =>
    let w' := record (HttpGet url headers) w in
    match transport env url headers with
    | None => (Threw (AxiosRejected None), w')
    | Some r =>
        if (HttpResponse.status r =? 0)%Z
           || validateStatus (HttpResponse.status r)
        then (Returned r, w')
        else (Threw (AxiosRejected (Some (HttpResponse.status r))), w')
    end.
End Collaborators.

(* ===================================================================== *)
(** ** The request context *)
(* ===================================================================== *)

(** What the handlers read from [Context] / [BlobStorageContext]. *)
Module Context.
Record t := mk
  { contextID : string;
    startTime : Z;
    account : string;
    container : string;
    endpoint : string;                     (* [request.getEndpoint()] *)
    requestHeaders : gmap string string;   (* [request.getHeader(name)] *)
    body : option string;                  (* [request.getBody()] *)
    operation : string }.
End Context.

(* ===================================================================== *)
(** ** ContainerHandler *)
(* ===================================================================== *)

Module ContainerHandler.

Definition LIST_BLOBS_MAX_RESULTS_DEFAULT : Z := 5000.

Module CreateOptions.
Record t := mk
  { metadata : option (gmap string string);
    access : option PublicAccessType }.
End CreateOptions.

Module CreateResponse.
Record t := mk
  { eTag : string;
    lastModified : Z;
    requestId : string;
    statusCode : Z;
    version : string }.
End CreateResponse.

Module SetMetadataOptions.
Record t := mk { metadata : option (gmap string string) }.
End SetMetadataOptions.

Module SetMetadataResponse.
Record t := mk
  { date : Z;
    eTag : string;
    lastModified : Z;
    requestId : string;
    statusCode : Z }.
End SetMetadataResponse.

Module SetAccessPolicyOptions.
Record t := mk
  { access : option PublicAccessType;
    containerAcl : option (list SignedIdentifier.t);
    leaseAccessConditions : option (option string) }.
End SetAccessPolicyOptions.

Module SetAccessPolicyResponse.
Record t := mk
  { date : Z;
    eTag : string;
    lastModified : Z;
    requestId : string;
    version : string;
    statusCode : Z }.
End SetAccessPolicyResponse.

Module ListBlobsOptions.
Record t := mk
  { prefix : option string;
    marker : option string;
    maxresults : option Z;
    include : option (list ListBlobsIncludeItem) }.
End ListBlobsOptions.

Module ListBlobsResponse.
Record t := mk
  { statusCode : Z;
    contentType : string;
    requestId : string;
    version : string;
    date : Z;
    serviceEndpoint : string;
    containerName : string;
    prefix : string;
    marker : string;
    maxResults : Z;
    delimiter : string;
    blobItems : list BlobModel.t;
    blobPrefixes : option (list string);  (* absent in a flat listing *)
    nextMarker : string }.
End ListBlobsResponse.

Section Handler.
Context {S : Type} (env : Env S).

Definition create (options : CreateOptions.t) (context : Context.t)
  : M S CreateResponse.t :=
  let accountName := Context.account context in
  let containerName := Context.container context in
  let lastModified := Context.startTime context in
  etag ← newEtag env;
  _ ← callStore env (createContainer
         (ContainerModel.mk accountName
            (CreateOptions.metadata options)
            containerName
            (ContainerProperties.mk etag lastModified
               Unlocked Available
               (CreateOptions.access options)
               false false)));
  mret (CreateResponse.mk etag lastModified
          (Context.contextID context) 201 (BLOB_API_VERSION env)).

Definition setMetadata (options : SetMetadataOptions.t)
    (context : Context.t) : M S SetMetadataResponse.t :=
  let accountName := Context.account context in
  let containerName := Context.container context in
  let date := Context.startTime context in
  eTag ← newEtag env;
  _ ← callStore env (setContainerMetadata accountName containerName
         date eTag (SetMetadataOptions.metadata options));
  mret (SetMetadataResponse.mk date eTag date
          (Context.contextID context) 200).

Definition setAccessPolicy (options : SetAccessPolicyOptions.t)
    (context : Context.t) : M S SetAccessPolicyResponse.t :=
  let accountName := Context.account context in
  let containerName := Context.container context in
  let date := Context.startTime context in
  eTag ← newEtag env;
  _ ← callStore env (setContainerACL accountName containerName
         (ContainerACL.mk date eTag
            (SetAccessPolicyOptions.access options)
            (SetAccessPolicyOptions.containerAcl options)
            (SetAccessPolicyOptions.leaseAccessConditions options)));
  mret (SetAccessPolicyResponse.mk date eTag date
          (Context.contextID context) (BLOB_API_VERSION env) 200).

(** [options.include !== undefined &&
     options.include.includes(ListBlobsIncludeItem.Snapshots)]. *)
Definition includesSnapshots
    (include : option (list ListBlobsIncludeItem)) : bool :=
  match include with
  | Some l => bool_decide (Snapshots ∈ l)
  | None => false
  end.

(** [blob.deleted = blob.deleted !== true ? undefined : true]. *)
Definition normalizeDeleted (blob : BlobModel.t) : BlobModel.t :=
  BlobModel.mk (BlobModel.name blob) (BlobModel.snapshot blob)
    (match BlobModel.deleted blob with
     | Some true => Some true
     | _ => None
     end).

Definition listBlobFlatSegment (options : ListBlobsOptions.t)
    (context : Context.t) : M S ListBlobsResponse.t :=
  let accountName := Context.account context in
  let containerName := Context.container context in
  _ ← callStore env (checkContainerExist accountName containerName);
  let marker := ListBlobsOptions.marker options in
  let delimiter := "" in
  let options_marker := Js.str_or (ListBlobsOptions.marker options) "" in
  let includeSnapshots :=
    includesSnapshots (ListBlobsOptions.include options) in
  '(blobs, nextMarker) ← callStore env
     (listBlobs accountName containerName None
        (ListBlobsOptions.prefix options)
        (ListBlobsOptions.maxresults options)
        marker includeSnapshots);
  let blobItems := map normalizeDeleted blobs in
  let serviceEndpoint :=
    Context.endpoint context ++ "/" ++ accountName in
  mret (ListBlobsResponse.mk 200 "application/xml"
          (Context.contextID context) (BLOB_API_VERSION env)
          (Context.startTime context) serviceEndpoint containerName
          (Js.str_or (ListBlobsOptions.prefix options) "")
          options_marker
          (Js.num_or (ListBlobsOptions.maxresults options)
             LIST_BLOBS_MAX_RESULTS_DEFAULT)
          delimiter blobItems None
          (Js.str_or nextMarker "")).

(** The body of the loop over the scanned blobs: the state is the
    pair of [blobItems] and [blobPrefixesSet]. *)
Definition classify (delimiter : string) (prefixLength : Z)
    (acc : list BlobModel.t * list string) (blob : BlobModel.t)
  : list BlobModel.t * list string :=
  let delimiterPosAfterPrefix :=
    Js.indexOf (BlobModel.name blob) delimiter prefixLength in
  if (delimiterPosAfterPrefix <? 0)%Z
  then ((fst acc ++ [normalizeDeleted blob])%list, snd acc)
  else
    let prefix :=
      Js.substr (BlobModel.name blob) 0 (delimiterPosAfterPrefix + 1) in
    (fst acc, Js.set_add prefix (snd acc)).

Definition partition (delimiter : string) (prefixLength : Z)
    (blobs : list BlobModel.t) : list BlobModel.t * list string :=
  fold_left (classify delimiter prefixLength) blobs ([], []).

Definition listBlobHierarchySegment (delimiter : string)
    (options : ListBlobsOptions.t) (context : Context.t)
  : M S ListBlobsResponse.t :=
  let accountName := Context.account context in
  let containerName := Context.container context in
  _ ← callStore env (checkContainerExist accountName containerName);
  let marker := ListBlobsOptions.marker options in
  let delimiter := if String.eqb delimiter "" then "/" else delimiter in
  let options_prefix := Js.str_or (ListBlobsOptions.prefix options) "" in
  let options_marker := Js.str_or (ListBlobsOptions.marker options) "" in
  let includeSnapshots :=
    includesSnapshots (ListBlobsOptions.include options) in
  '(blobs, nextMarker) ← callStore env
     (listBlobs accountName containerName None
        (Some options_prefix)
        (ListBlobsOptions.maxresults options)
        marker includeSnapshots);
  let prefixLength := Js.length options_prefix in
  let '(blobItems, blobPrefixesSet) :=
    partition delimiter prefixLength blobs in
  let blobPrefixes := blobPrefixesSet in
  let serviceEndpoint :=
    Context.endpoint context ++ "/" ++ accountName in
  mret (ListBlobsResponse.mk 200 "application/xml"
          (Context.contextID context) (BLOB_API_VERSION env)
          (Context.startTime context) serviceEndpoint containerName
          options_prefix options_marker
          (Js.num_or (ListBlobsOptions.maxresults options)
             LIST_BLOBS_MAX_RESULTS_DEFAULT)
          delimiter blobItems (Some blobPrefixes)
          (Js.str_or nextMarker "")).
End Handler.

End ContainerHandler.

(* ===================================================================== *)
(** ** ServiceHandler *)
(* ===================================================================== *)

Module ServiceHandler.

Definition LIST_CONTAINERS_MAX_RESULTS_DEFAULT : Z := 2000.

Module SetPropertiesResponse.
Record t := mk
  { requestId : string;
    statusCode : Z;
    version : string }.
End SetPropertiesResponse.

Module GetPropertiesResponse.
Record t := mk
  { accountName : string;
    props : StorageServiceProperties.t;
    requestId : string;
    statusCode : Z;
    version : string }.
End GetPropertiesResponse.

Module ListContainersOptions.
Record t := mk
  { prefix : option string;
    marker : option string;
    maxresults : option Z }.
End ListContainersOptions.

Module ListContainersResponse.
Record t := mk
  { containerItems : list ContainerModel.t;
    maxResults : Z;
    nextMarker : string;
    prefix : string;
    serviceEndpoint : string;
    statusCode : Z;
    requestId : string;
    version : string }.
End ListContainersResponse.

Module KeyInfo.
Record t := mk { start : string; expiry : string }.
End KeyInfo.

Definition defaultMetrics : Metrics.t :=
  Metrics.mk false (Some (RetentionPolicy.mk false None)) (Some "1.0") None.

Definition defaultLogging : Logging.t :=
  Logging.mk true true (RetentionPolicy.mk false None) "1.0" true.

Definition defaultStaticWebsite : StaticWebsite.t :=
  StaticWebsite.mk false None None.

(** [`${n || ""}`] for an optional number. *)
Definition markerText (n : option Z) : string :=
  match n with
  | Some 0 => ""
  | Some k => pretty k
  | None => ""
  end.

Section Handler.
Context {S : Type} (env : Env S).

Definition defaultServiceProperties : StorageServiceProperties.t :=
  StorageServiceProperties.mk
    (Some [])
    (Some (BLOB_API_VERSION env))
    (Some defaultMetrics)
    (Some defaultLogging)
    (Some defaultMetrics)
    (Some defaultStaticWebsite).

(** Both stubs throw before returning any promise; [A] is the type of
    the response they never build. *)
Definition getUserDelegationKey {A} (keyInfo : KeyInfo.t)
    (context : Context.t) : M S A :=
  throw (PlainError "Method not implemented.").

Definition submitBatch {A} (body : string) (contentLength : Z)
    (multipartContentType : string) (context : Context.t) : M S A :=
  throw (PlainError "Method not implemented.").



(** [if (x === undefined) x = d] on an optional field. *)
Definition fill {A} (x : option A) (d : option A) : option A :=
  match x with
  | Some v => Some v
  | None => d
  end.

Definition getProperties (context : Context.t)
  : M S GetPropertiesResponse.t :=
  let accountName := Context.account context in
  stored ← callStore env (getServiceProperties accountName);
  let properties :=
    match stored with
    | Some p => p
    | None => ServicePropertiesModel.mk accountName defaultServiceProperties
    end in
  let p := ServicePropertiesModel.props properties in
  let d := defaultServiceProperties in
  let cors := fill (StorageServiceProperties.cors p) (Some []) in
  let cors := fill cors (Some []) in
  let hourMetrics :=
    fill (StorageServiceProperties.hourMetrics p)
         (StorageServiceProperties.hourMetrics d) in
  let logging :=
    fill (StorageServiceProperties.logging p)
         (StorageServiceProperties.logging d) in
  let minuteMetrics :=
    fill (StorageServiceProperties.minuteMetrics p)
         (StorageServiceProperties.minuteMetrics d) in
  let defaultServiceVersion :=
    fill (StorageServiceProperties.defaultServiceVersion p)
         (StorageServiceProperties.defaultServiceVersion d) in
  let staticWebsite :=
    fill (StorageServiceProperties.staticWebsite p)
         (StorageServiceProperties.staticWebsite d) in
  mret (GetPropertiesResponse.mk
          (ServicePropertiesModel.accountName properties)
          (StorageServiceProperties.mk cors defaultServiceVersion
             hourMetrics logging minuteMetrics staticWebsite)
          (Context.contextID context) 200 (BLOB_API_VERSION env)).

Definition listContainersSegment (options : ListContainersOptions.t)
    (context : Context.t) : M S ListContainersResponse.t :=
  let accountName := Context.account context in
  let options_maxresults :=
    Js.num_or (ListContainersOptions.maxresults options)
      LIST_CONTAINERS_MAX_RESULTS_DEFAULT in
  let options_prefix :=
    Js.str_or (ListContainersOptions.prefix options) "" in
  let marker :=
    Js.parseInt10 (Js.str_or (ListContainersOptions.marker options) "0") in
  containers ← callStore env
    (listContainers accountName options_prefix options_maxresults marker);
  let serviceEndpoint :=
    Context.endpoint context ++ "/" ++ accountName in
  mret (ListContainersResponse.mk (fst containers) options_maxresults
          (markerText (snd containers)) options_prefix serviceEndpoint
          200 (Context.contextID context) (BLOB_API_VERSION env)).
End Handler.

End ServiceHandler.

(* ===================================================================== *)
(** ** BaseBlobHandler *)
(* ===================================================================== *)

Module BaseBlobHandler.

Definition resourceDoesNotExist : string :=
  "The specified resource does not exist".

Definition couldNotVerify : string :=
  "Could not verify the copy source within the specified time.".

Section Handler.
Context {S : Type} (env : Env S).

Definition NewUriFromCopySource (copySource : string)
    (context : Context.t) : M S URL.t :=
  match newURL env copySource with
  | Some url => mret url
  | None =>
      throw (Storage (InvalidHeaderValue (Context.contextID context)
                        "x-ms-copy-source" copySource))
  end.

Definition copyHeader (context : Context.t)
    (targetHeaders : gmap string string) (name targetName : string)
  : gmap string string :=
  match Context.requestHeaders context !! name with
  | Some headerValue => <[targetName := headerValue]> targetHeaders
  | None => targetHeaders
  end.

(** The failure built from a response that is neither a success nor
    a 404. *)
Definition unwrapMessage (response : HttpResponse.t) : string :=
  if bool_decide (HttpResponse.headers response !! CONTENT_TYPE env
                  = Some "application/xml")
  then
    let authenticationError := parseXML env (HttpResponse.data response) in
    match authenticationError !! "Message" with
    | Some m => Js.strip_newlines m
    | None => couldNotVerify
    end
  else couldNotVerify.

Definition getCopySourceContent (copySource sourceAccount : string)
    (context : Context.t) : M S string :=
  let sourceHeaders :=
    copyHeader context ∅ "x-ms-source-range" (RANGE env) in
  response ← axios_get env copySource sourceHeaders (fun _ => true);
  let status := HttpResponse.status response in
  if (200 <=? status)%Z && (status <? 300)%Z
  then mret (HttpResponse.data response)
  else if (status =? 404)%Z
  then throw (Storage (CannotVerifyCopySource (Context.contextID context)
                         status resourceDoesNotExist))
  else throw (Storage (CannotVerifyCopySource (Context.contextID context)
                         status (unwrapMessage response))).

Definition validateCopySource (copySource sourceAccount : string)
    (context : Context.t) : M S unit :=
  let currentServer :=
    Js.str_or (Context.requestHeaders context !! "Host") "" in
  url ← NewUriFromCopySource copySource context;
  if negb (String.eqb currentServer (URL.host url))
  then throw (Storage (CannotVerifyCopySource (Context.contextID context)
                         404 resourceDoesNotExist))
  else
    let metadataUrl :=
      withQueryParameter env copySource "comp" "metadata" in
    validationResponse ← axios_get env metadataUrl ∅ (fun _ => true);
    let status := HttpResponse.status validationResponse in
    if (status =? 200)%Z
    then mret tt
    else if (status =? 404)%Z
    then throw (Storage (CannotVerifyCopySource
                           (Context.contextID context)
                           status resourceDoesNotExist))
    else throw (Storage (CannotVerifyCopySource
                           (Context.contextID context)
                           status (unwrapMessage validationResponse))).
End Handler.

End BaseBlobHandler.

(* ===================================================================== *)
(** ** A concrete environment *)
(* ===================================================================== *)

(** A store that always succeeds and answers every scan with the same
    blobs and every properties lookup with the same record, a network
    that answers every GET with the same response, and toy parsers.  The
    general statements below are exercised on it. *)
Module Fixture.

Definition store (blobs : list BlobModel.t)
    (stored : option ServicePropertiesModel.t)
  : forall c : StoreCall, unit -> Outcome (Reply c) * unit :=
  fun c s =>
    match c return Outcome (Reply c) * unit with
    | listBlobs _ _ _ _ _ _ _ => (Returned (blobs, None), s)
    | listContainers _ _ _ _ => (Returned ([], None), s)
    | getServiceProperties _ => (Returned stored, s)
    | createContainer _ => (Returned tt, s)
    | setContainerMetadata _ _ _ _ _ => (Returned tt, s)
    | setContainerACL _ _ _ => (Returned tt, s)
    | checkContainerExist _ _ => (Returned tt, s)
    | setServiceProperties _ => (Returned tt, s)
    end.

(** Only [http://host/path] is understood. *)
Definition newURL (u : string) : option URL.t :=
  if String.prefix "http://" u then
    let rest := Js.skip 7 u in
    let p := Js.indexOf rest "/" 0 in
    Some (URL.mk (if (p <? 0)%Z then rest else Js.substr rest 0 p) u)
  else None.

(** The body [<Error>] parses to its message, [<Cors/>] to an empty
    [Cors] child, anything else to an object without properties. *)
Definition parseXML (body : string) : gmap string string :=
  if String.eqb body "<Error>" then
    {[ "Message" := "Server failed to authenticate the request." ++
                    String "010" "Check the Authorization header." ]}
  else if String.eqb body "<Cors/>" then {[ "Cors" := "" ]}
  else ∅.

Definition env (blobs : list BlobModel.t)
    (stored : option ServicePropertiesModel.t)
    (response : option HttpResponse.t) : Env unit :=
  mkEnv unit (store blobs stored)
    (fun n => "0x" ++ pretty n)
    "2021-10-04" "content-type" "Range"
    parseXML newURL
    (fun u k v => u ++ "?" ++ k ++ "=" ++ v)
    (fun _ _ => response).

(** Nothing stored, no network. *)
Definition quiet : Env unit := env [] None None.

Definition world : World unit := mkWorld tt 0%nat [].

Definition context : Context.t :=
  Context.mk "req-1" 1700000000000 "devstoreaccount1" "pics"
    "http://127.0.0.1:10000"
    {[ "Host" := "127.0.0.1:10000" ]} None "Blob_StartCopyFromURL".

Definition blob (name : string) (deleted : option bool) : BlobModel.t :=
  BlobModel.mk name "" deleted.

(** A listing request with no parameter set. *)
Definition plain : ContainerHandler.ListBlobsOptions.t :=
  ContainerHandler.ListBlobsOptions.mk None None None None.

(** A source on the request's own host, one on another host, and a
    string that is no URL. *)
Definition sameHost : string :=
  "http://127.0.0.1:10000/devstoreaccount1/pics/a.jpg".
Definition otherHost : string :=
  "http://example.com/devstoreaccount1/pics/a.jpg".
Definition notAUrl : string := "pics/a.jpg".

(** An authentication failure reported in XML. *)
Definition forbidden : HttpResponse.t :=
  HttpResponse.mk 403 {[ "content-type" := "application/xml" ]} "<Error>".

Definition oneRule : CorsRule.t := CorsRule.mk "*" "GET" "*" "*" 60.


(** A stored record with one CORS rule and nothing else. *)
Definition storedRule : ServicePropertiesModel.t :=
  ServicePropertiesModel.mk "devstoreaccount1"
    (StorageServiceProperties.mk (Some [oneRule]) None None None None None).


End Fixture.

(* ===================================================================== *)
(** ** ContainerHandler: reading a container back *)
(* ===================================================================== *)

(** The two store methods that read a container.  They run on the same
    store state as the methods above; their calls are not written to the
    trace. *)
Inductive StoreQuery : Type :=
| getContainerProperties (account container : string)
| getContainerACL (account container : string)
    (leaseAccessConditions : option (option string)).

Module ContainerPropertiesResponse.
Record t := mk
  { properties : ContainerProperties.t;
    metadata : option (gmap string string) }.
End ContainerPropertiesResponse.

Module ContainerACLResponse.
Record t := mk
  { properties : ContainerProperties.t;
    containerAcl : option (list SignedIdentifier.t) }.
End ContainerACLResponse.

Definition Answer (q : StoreQuery) : Type :=
  match q with
  | getContainerProperties _ _ => ContainerPropertiesResponse.t
  | getContainerACL _ _ _ => ContainerACLResponse.t
  end.

Module ContainerReads.

Module GetPropertiesResponse.
Record t := mk
  { eTag : string;
    properties : ContainerProperties.t;   (* [...containerProperties.properties] *)
    blobPublicAccess : option PublicAccessType;
    metadata : option (gmap string string);
    requestId : string;
    statusCode : Z;
    version : string }.
End GetPropertiesResponse.

(** The response of [getAccessPolicy] is an array of signed identifiers
    that also carries the header fields. *)
Module GetAccessPolicyResponse.
Record t := mk
  { identifiers : list SignedIdentifier.t;
    date : Z;
    blobPublicAccess : option PublicAccessType;
    eTag : string;
    lastModified : Z;
    requestId : string;
    version : string;
    statusCode : Z }.
End GetAccessPolicyResponse.

Section Handler.
Context {S : Type} (env : Env S)
  (metadataStoreReads : forall q : StoreQuery, S -> Outcome (Answer q) * S).

(** [await this.metadataStore.method(args)] for a reading method. *)
Definition callStoreReads (q : StoreQuery) : M S (Answer q) :=
  fun w =>
    let (r, s') := metadataStoreReads q (store w) in
    (r, mkWorld s' (issued w) (trace w)).

Definition getProperties (context : Context.t)
  : M S GetPropertiesResponse.t :=
  let accountName := Context.account context in
  let containerName := Context.container context in
  containerProperties ← callStoreReads
    (getContainerProperties accountName containerName);
  let properties :=
    ContainerPropertiesResponse.properties containerProperties in
  mret (GetPropertiesResponse.mk
          (ContainerProperties.etag properties)
          properties
          (ContainerProperties.publicAccess properties)
          (ContainerPropertiesResponse.metadata containerProperties)
          (Context.contextID context) 200 (BLOB_API_VERSION env)).

Definition getPropertiesWithHead (context : Context.t)
  : M S GetPropertiesResponse.t :=
  getProperties context.

Definition getAccessPolicy
    (leaseAccessConditions : option (option string)) (context : Context.t)
  : M S GetAccessPolicyResponse.t :=
  let accountName := Context.account context in
  let containerName := Context.container context in
  containerAcl ← callStoreReads
    (getContainerACL accountName containerName leaseAccessConditions);
  let properties := ContainerACLResponse.properties containerAcl in
  let responseArray :=
    match ContainerACLResponse.containerAcl containerAcl with
    | Some identifiers => ([] ++ identifiers)%list
    | None => []
    end in
  mret (GetAccessPolicyResponse.mk responseArray
          (ContainerProperties.lastModified properties)
          (ContainerProperties.publicAccess properties)
          (ContainerProperties.etag properties)
          (ContainerProperties.lastModified properties)
          (Context.contextID context) (BLOB_API_VERSION env) 200).
End Handler.

End ContainerReads.

(** A store that keeps one container in memory: created once, updated by
    the metadata and access policy calls, read back by the two reading
    methods.  It refuses what the container's absence or presence
    forbids. *)
Module Memory.

Record Kept := mkKept
  { container : ContainerModel.t;
    acl : option (list SignedIdentifier.t) }.

Definition restamp (c : ContainerModel.t) (etag : string) (lastModified : Z)
    (publicAccess : option PublicAccessType)
    (metadata : option (gmap string string)) : ContainerModel.t :=
  let p := ContainerModel.properties c in
  ContainerModel.mk (ContainerModel.accountName c) metadata
    (ContainerModel.name c)
    (ContainerProperties.mk etag lastModified
       (ContainerProperties.leaseStatus p) (ContainerProperties.leaseState p)
       publicAccess
       (ContainerProperties.hasImmutabilityPolicy p)
       (ContainerProperties.hasLegalHold p)).

Definition notFound {A} : Outcome A :=
  Threw (Storage (StoreFailure "ContainerNotFound" 404)).

Definition store
  : forall c : StoreCall, option Kept -> Outcome (Reply c) * option Kept :=
  fun c s =>
    match c return Outcome (Reply c) * option Kept with
    | createContainer new =>
        match s with
        | None => (Returned tt, Some (mkKept new None))
        | Some _ =>
            (Threw (Storage (StoreFailure "ContainerAlreadyExists" 409)), s)
        end
    | setContainerMetadata _ _ lastModified etag metadata =>
        match s with
        | Some k =>
            (Returned tt,
             Some (mkKept
                     (restamp (container k) etag lastModified
                        (ContainerProperties.publicAccess
                           (ContainerModel.properties (container k)))
                        metadata)
                     (acl k)))
        | None => (notFound, s)
        end
    | setContainerACL _ _ new =>
        match s with
        | Some k =>
            (Returned tt,
             Some (mkKept
                     (restamp (container k) (ContainerACL.etag new)
                        (ContainerACL.lastModified new)
                        (ContainerACL.publicAccess new)
                        (ContainerModel.metadata (container k)))
                     (ContainerACL.containerAcl new)))
        | None => (notFound, s)
        end
    | checkContainerExist _ _ =>
        match s with
        | Some _ => (Returned tt, s)
        | None => (notFound, s)
        end
    | listBlobs _ _ _ _ _ _ _ => (Returned ([], None), s)
    | listContainers _ _ _ _ =>
        (Returned (from_option (fun k => [container k]) [] s, None), s)
    | getServiceProperties _ => (Returned None, s)
    | setServiceProperties _ => (Returned tt, s)
    end.

Definition reads
  : forall q : StoreQuery, option Kept -> Outcome (Answer q) * option Kept :=
  fun q s =>
    match q return Outcome (Answer q) * option Kept with
    | getContainerProperties _ _ =>
        match s with
        | Some k =>
            (Returned (ContainerPropertiesResponse.mk
                         (ContainerModel.properties (container k))
                         (ContainerModel.metadata (container k))), s)
        | None => (notFound, s)
        end
    | getContainerACL _ _ _ =>
        match s with
        | Some k =>
            (Returned (ContainerACLResponse.mk
                         (ContainerModel.properties (container k))
                         (acl k)), s)
        | None => (notFound, s)
        end
    end.

Definition env : Env (option Kept) :=
  mkEnv (option Kept) store (fun n => "0x" ++ pretty n)
    "2021-10-04" "content-type" "Range"
    Fixture.parseXML Fixture.newURL
    (fun u k v => u ++ "?" ++ k ++ "=" ++ v)
    (fun _ _ => None).

Definition empty : World (option Kept) := mkWorld None 0%nat [].

Definition oneIdentifier : SignedIdentifier.t :=
  SignedIdentifier.mk "policy-1" (Some "2019-04-30T16:00:00Z")
    (Some "2019-12-31T16:00:00Z") (Some "r").

End Memory.

(** More requests and stores to exercise the statements on. *)
Module Scenes.

(** A store whose scan answers [scan] and whose container listing hands
    out the next marker [next]. *)
Definition store (scan : Outcome (list BlobModel.t * option string))
    (next : option Z)
  : forall c : StoreCall, unit -> Outcome (Reply c) * unit :=
  fun c s =>
    match c return Outcome (Reply c) * unit with
    | listBlobs _ _ _ _ _ _ _ => (scan, s)
    | listContainers _ _ _ _ => (Returned ([], next), s)
    | getServiceProperties _ => (Returned None, s)
    | createContainer _ => (Returned tt, s)
    | setContainerMetadata _ _ _ _ _ => (Returned tt, s)
    | setContainerACL _ _ _ => (Returned tt, s)
    | checkContainerExist _ _ => (Returned tt, s)
    | setServiceProperties _ => (Returned tt, s)
    end.

Definition env (scan : Outcome (list BlobModel.t * option string))
    (next : option Z) (response : option HttpResponse.t) : Env unit :=
  mkEnv unit (store scan next) (fun n => "0x" ++ pretty n)
    "2021-10-04" "content-type" "Range"
    Fixture.parseXML Fixture.newURL
    (fun u k v => u ++ "?" ++ k ++ "=" ++ v)
    (fun _ _ => response).

Definition busy : Exn := Storage (StoreFailure "ServerBusy" 503).

(** A copy request for the first ten bytes of the source. *)
Definition rangeContext : Context.t :=
  Context.mk "req-2" 1700000000000 "devstoreaccount1" "pics"
    "http://127.0.0.1:10000"
    {[ "Host" := "127.0.0.1:10000";
       "x-ms-source-range" := "bytes=0-9";
       "Authorization" := "SharedKey devstoreaccount1:secret" ]}
    None "BlockBlob_PutBlockFromURL".

Definition ok : HttpResponse.t := HttpResponse.mk 200 ∅ "".
Definition partialContent : HttpResponse.t :=
  HttpResponse.mk 206 ∅ "0123456789".

(** A listing under the prefix [photos/]. *)
Definition underPhotos : ContainerHandler.ListBlobsOptions.t :=
  ContainerHandler.ListBlobsOptions.mk (Some "photos/") None None None.

Definition album : list BlobModel.t :=
  [Fixture.blob "photos/2019/a.jpg" None;
   Fixture.blob "photos/2019/b.jpg" None;
   Fixture.blob "photos/cover.jpg" None].

End Scenes.

(* ===================================================================== *)
(** ** Vocabulary of the statements *)
(* ===================================================================== *)

(** From here on [++] is the append of lists. *)
Open Scope list_scope.

Section Vocabulary.
Import ContainerHandler.

(** The container [create] hands to the store. *)
Definition createdContainer (options : CreateOptions.t)
    (context : Context.t) (etag : string) : ContainerModel.t :=
  ContainerModel.mk (Context.account context)
    (CreateOptions.metadata options) (Context.container context)
    (ContainerProperties.mk etag (Context.startTime context)
       Unlocked Available (CreateOptions.access options) false false).

Definition existenceCheck (context : Context.t) : StoreCall :=
  checkContainerExist (Context.account context) (Context.container context).

(** The scan a flat listing asks of the store. *)
Definition flatScan (options : ListBlobsOptions.t) (context : Context.t)
  : StoreCall :=
  listBlobs (Context.account context) (Context.container context) None
    (ListBlobsOptions.prefix options)
    (ListBlobsOptions.maxresults options)
    (ListBlobsOptions.marker options)
    (includesSnapshots (ListBlobsOptions.include options)).

(** The scan a hierarchical listing asks of the store. *)
Definition hierarchyScan (options : ListBlobsOptions.t)
    (context : Context.t) : StoreCall :=
  listBlobs (Context.account context) (Context.container context) None
    (Some (Js.str_or (ListBlobsOptions.prefix options) ""))
    (ListBlobsOptions.maxresults options)
    (ListBlobsOptions.marker options)
    (includesSnapshots (ListBlobsOptions.include options)).

(** The delimiter a hierarchical listing works with. *)
Definition effectiveDelimiter (delimiter : string) : string :=
  if String.eqb delimiter "" then "/" else delimiter.

(** Position of the first delimiter at or after the prefix length. *)
Definition delimiterPos (delimiter : string) (prefixLength : Z)
    (blob : BlobModel.t) : Z :=
  Js.indexOf (BlobModel.name blob) delimiter prefixLength.

Definition isBlobItem (delimiter : string) (prefixLength : Z)
    (blob : BlobModel.t) : bool :=
  (delimiterPos delimiter prefixLength blob <? 0)%Z.

Definition virtualPrefix (delimiter : string) (prefixLength : Z)
    (blob : BlobModel.t) : string :=
  Js.substr (BlobModel.name blob) 0
    (delimiterPos delimiter prefixLength blob + 1).

(** The name cut just past the delimiter found at position [p]. *)
Definition cutPastDelimiter (delimiter : string) (prefixLength : Z)
    (blob : BlobModel.t) : string :=
  Js.substr (BlobModel.name blob) 0
    (delimiterPos delimiter prefixLength blob + Js.length delimiter).

(** The three operations that rewrite a container. *)
Inductive Mutation : Type :=
| Create (options : CreateOptions.t)
| SetMetadata (options : SetMetadataOptions.t)
| SetAccessPolicy (options : SetAccessPolicyOptions.t).

(** Run one of them and keep the [eTag] and [lastModified] of its
    response. *)
Definition mutate {S} (env : Env S) (m : Mutation) (context : Context.t)
  : M S (string * Z) :=
  match m with
  | Create options =>
      r ← create env options context;
      mret (CreateResponse.eTag r, CreateResponse.lastModified r)
  | SetMetadata options =>
      r ← setMetadata env options context;
      mret (SetMetadataResponse.eTag r, SetMetadataResponse.lastModified r)
  | SetAccessPolicy options =>
      r ← setAccessPolicy env options context;
      mret (SetAccessPolicyResponse.eTag r,
            SetAccessPolicyResponse.lastModified r)
  end.

(** The etag and the modification time a store call carries. *)
Definition stampOf (c : StoreCall) : option (string * Z) :=
  match c with
  | createContainer container =>
      let p := ContainerModel.properties container in
      Some (ContainerProperties.etag p, ContainerProperties.lastModified p)
  | setContainerMetadata _ _ lastModified etag _ => Some (etag, lastModified)
  | setContainerACL _ _ acl =>
      Some (ContainerACL.etag acl, ContainerACL.lastModified acl)
  | _ => None
  end.

(** Which store method a mutation goes through. *)
Definition targets (m : Mutation) (c : StoreCall) : Prop :=
  match m, c with
  | Create _, createContainer _ => True
  | SetMetadata _, setContainerMetadata _ _ _ _ _ => True
  | SetAccessPolicy _, setContainerACL _ _ _ => True
  | _, _ => False
  end.

(** Service properties with no field set. *)
Definition unsetProperties : StorageServiceProperties.t :=
  StorageServiceProperties.mk None None None None None None.

(** The properties of a stored record, if there is one. *)
Definition storedProperties (stored : option ServicePropertiesModel.t)
  : StorageServiceProperties.t :=
  from_option ServicePropertiesModel.props unsetProperties stored.

(** Logging that records no kind of request. *)
Definition loggingDisabled (l : Logging.t) : Prop :=
  Logging.read l = false /\ Logging.write l = false
  /\ Logging.deleteProperty l = false.

(** Service properties as a fresh account is said to show them: no
    CORS rule, metrics, logging and static website all disabled, and
    the given service version. *)
Definition allDisabled (version : string) (p : StorageServiceProperties.t)
  : Prop :=
  StorageServiceProperties.cors p = Some []
  /\ (exists m, StorageServiceProperties.hourMetrics p = Some m
                /\ Metrics.enabled m = false)
  /\ (exists l, StorageServiceProperties.logging p = Some l
                /\ loggingDisabled l)
  /\ (exists m, StorageServiceProperties.minuteMetrics p = Some m
                /\ Metrics.enabled m = false)
  /\ StorageServiceProperties.defaultServiceVersion p = Some version
  /\ (exists sw, StorageServiceProperties.staticWebsite p = Some sw
                 /\ StaticWebsite.enabled sw = false).

(** A failure that carries a storage error code. *)
Definition typedFailure {A} (o : Outcome A) : Prop :=
  exists e, o = Threw (Storage e).
End Vocabulary.

(* ===================================================================== *)
(** ** How each handler runs *)
(* ===================================================================== *)

(** Unfold the monad at a handler call. *)
Ltac run_handler :=
  unfold mbind, mret, M_bind, M_ret, bind, ret, throw, callStore, newEtag,
    axios_get, record; simpl.

Section ContainerHandlerRuns.
Context {S : Type} (env : Env S).
Import ContainerHandler.

Lemma create_run options context w :
  let etag := etagOf env (issued w) in
  let call := createContainer (createdContainer options context etag) in
  let w' s := mkWorld s (Datatypes.S (issued w))
                (trace w ++ [CallStore call]) in
  create env options context w =
    match metadataStore env call (store w) with
    | (Returned _, s) =>
        (Returned (CreateResponse.mk etag (Context.startTime context)
                     (Context.contextID context) 201
                     (BLOB_API_VERSION env)), w' s)
    | (Threw e, s) => (Threw e, w' s)
    end.
Proof.
  unfold create, createdContainer. run_handler.
  destruct (metadataStore env _ (store w)) as [[[]|e] s]; reflexivity.
Qed.

Lemma setMetadata_run options context w :
  let eTag := etagOf env (issued w) in
  let date := Context.startTime context in
  let call := setContainerMetadata (Context.account context)
                (Context.container context) date eTag
                (SetMetadataOptions.metadata options) in
  let w' s := mkWorld s (Datatypes.S (issued w))
                (trace w ++ [CallStore call]) in
  setMetadata env options context w =
    match metadataStore env call (store w) with
    | (Returned _, s) =>
        (Returned (SetMetadataResponse.mk date eTag date
                     (Context.contextID context) 200), w' s)
    | (Threw e, s) => (Threw e, w' s)
    end.
Proof.
  unfold setMetadata. run_handler.
  destruct (metadataStore env _ (store w)) as [[[]|e] s]; reflexivity.
Qed.

Lemma setAccessPolicy_run options context w :
  let eTag := etagOf env (issued w) in
  let date := Context.startTime context in
  let call := setContainerACL (Context.account context)
                (Context.container context)
                (ContainerACL.mk date eTag
                   (SetAccessPolicyOptions.access options)
                   (SetAccessPolicyOptions.containerAcl options)
                   (SetAccessPolicyOptions.leaseAccessConditions options)) in
  let w' s := mkWorld s (Datatypes.S (issued w))
                (trace w ++ [CallStore call]) in
  setAccessPolicy env options context w =
    match metadataStore env call (store w) with
    | (Returned _, s) =>
        (Returned (SetAccessPolicyResponse.mk date eTag date
                     (Context.contextID context) (BLOB_API_VERSION env)
                     200), w' s)
    | (Threw e, s) => (Threw e, w' s)
    end.
Proof.
  unfold setAccessPolicy. run_handler.
  destruct (metadataStore env _ (store w)) as [[[]|e] s]; reflexivity.
Qed.
End ContainerHandlerRuns.

Section ListingRuns.
Context {S : Type} (env : Env S).
Import ContainerHandler.

Lemma listBlobFlatSegment_returned options context w r w' :
  listBlobFlatSegment env options context w = (Returned r, w') ->
  exists s1 blobs nextMarker,
    metadataStore env (existenceCheck context) (store w)
      = (Returned tt, s1)
    /\ metadataStore env (flatScan options context) s1
      = (Returned (blobs, nextMarker), store w')
    /\ trace w' = trace w ++ [CallStore (existenceCheck context);
                              CallStore (flatScan options context)]
    /\ issued w' = issued w
    /\ r = ListBlobsResponse.mk 200 "application/xml"
             (Context.contextID context) (BLOB_API_VERSION env)
             (Context.startTime context)
             (Context.endpoint context ++ "/" ++ Context.account context)%string
             (Context.container context)
             (Js.str_or (ListBlobsOptions.prefix options) "")
             (Js.str_or (ListBlobsOptions.marker options) "")
             (Js.num_or (ListBlobsOptions.maxresults options)
                LIST_BLOBS_MAX_RESULTS_DEFAULT)
             "" (map normalizeDeleted blobs) None
             (Js.str_or nextMarker "").
Proof.
  unfold listBlobFlatSegment, existenceCheck, flatScan. run_handler.
  destruct (metadataStore env (checkContainerExist _ _) (store w))
    as [[[]|e1] s1] eqn:Hcheck; [|discriminate].
  simpl.
  destruct (metadataStore env (listBlobs _ _ _ _ _ _ _) s1)
    as [[[blobs nextMarker]|e2] s2] eqn:Hscan; [|discriminate].
  simpl. intros H. inversion H; subst; clear H.
  exists s1, blobs, nextMarker. simpl.
  rewrite <- app_assoc. repeat split; assumption || reflexivity.
Qed.

Lemma listBlobHierarchySegment_returned delimiter options context w r w' :
  listBlobHierarchySegment env delimiter options context w
    = (Returned r, w') ->
  exists s1 blobs nextMarker,
    let d := effectiveDelimiter delimiter in
    let options_prefix := Js.str_or (ListBlobsOptions.prefix options) "" in
    let parts := partition d (Js.length options_prefix) blobs in
    metadataStore env (existenceCheck context) (store w)
      = (Returned tt, s1)
    /\ metadataStore env (hierarchyScan options context) s1
      = (Returned (blobs, nextMarker), store w')
    /\ trace w' = trace w ++ [CallStore (existenceCheck context);
                              CallStore (hierarchyScan options context)]
    /\ issued w' = issued w
    /\ r = ListBlobsResponse.mk 200 "application/xml"
             (Context.contextID context) (BLOB_API_VERSION env)
             (Context.startTime context)
             (Context.endpoint context ++ "/" ++ Context.account context)%string
             (Context.container context)
             options_prefix
             (Js.str_or (ListBlobsOptions.marker options) "")
             (Js.num_or (ListBlobsOptions.maxresults options)
                LIST_BLOBS_MAX_RESULTS_DEFAULT)
             d (fst parts) (Some (snd parts))
             (Js.str_or nextMarker "").
Proof.
  unfold listBlobHierarchySegment, existenceCheck, hierarchyScan,
    effectiveDelimiter.
  run_handler.
  destruct (metadataStore env (checkContainerExist _ _) (store w))
    as [[[]|e1] s1] eqn:Hcheck; [|discriminate].
  simpl.
  destruct (metadataStore env (listBlobs _ _ _ _ _ _ _) s1)
    as [[[blobs nextMarker]|e2] s2] eqn:Hscan; [|discriminate].
  simpl.
  destruct (partition _ _ blobs) as [items prefixes] eqn:Hp.
  intros H. inversion H; subst; clear H.
  exists s1, blobs, nextMarker. simpl. rewrite Hp. simpl.
  rewrite <- app_assoc. repeat split; assumption || reflexivity.
Qed.
End ListingRuns.

(* ===================================================================== *)
(** ** The partition of a scanned page *)
(* ===================================================================== *)

Section Partition.
Import ContainerHandler.
Variables (delimiter : string) (prefixLength : Z).

Lemma set_add_elem x y (s : list string) :
  y ∈ Js.set_add x s <-> y ∈ s \/ y = x.
Proof.
  unfold Js.set_add. destruct (decide (x ∈ s)) as [Hin|Hout].
  - split; [auto|]. intros [H| ->]; assumption.
  - rewrite elem_of_app, list_elem_of_singleton. reflexivity.
Qed.

Lemma set_add_NoDup x (s : list string) :
  NoDup s -> NoDup (Js.set_add x s).
Proof.
  intros Hs. unfold Js.set_add. destruct (decide (x ∈ s)) as [Hin|Hout].
  - assumption.
  - apply NoDup_app. split; [assumption|]. split.
    + intros y Hy Hy'. apply list_elem_of_singleton in Hy'. subst.
      contradiction.
    + apply NoDup_singleton.
Qed.

Lemma classify_eq (items : list BlobModel.t) (set : list string) b :
  classify delimiter prefixLength (items, set) b =
    if isBlobItem delimiter prefixLength b
    then (items ++ [normalizeDeleted b], set)
    else (items, Js.set_add (virtualPrefix delimiter prefixLength b) set).
Proof. reflexivity. Qed.

(** The loop, for any state it is entered with. *)
Lemma classify_fold blobs (items : list BlobModel.t) (set : list string) :
  let out := fold_left (classify delimiter prefixLength) blobs (items, set) in
  fst out = items ++ map normalizeDeleted
                       (filter (fun b => isBlobItem delimiter prefixLength b
                                         = true) blobs)
  /\ (NoDup set -> NoDup (snd out))
  /\ (forall p, p ∈ snd out <->
        p ∈ set \/
        exists b, b ∈ blobs
                  /\ isBlobItem delimiter prefixLength b = false
                  /\ p = virtualPrefix delimiter prefixLength b).
Proof.
  revert items set. induction blobs as [|b blobs IH]; intros items set.
  - simpl. rewrite app_nil_r. repeat split; auto.
    intros [H|(b & Hb & _)]; [assumption|]. inversion Hb.
  - cbn [fold_left]. rewrite classify_eq.
    destruct (isBlobItem delimiter prefixLength b) eqn:Hb.
    + destruct (IH (items ++ [normalizeDeleted b]) set) as (H1 & H2 & H3).
      cbv zeta in *. rewrite H1. split; [|split].
      * rewrite filter_cons. rewrite decide_True by assumption.
        cbn [map]. rewrite <- app_assoc. reflexivity.
      * assumption.
      * intros p. rewrite H3. split.
        -- intros [H|(b' & Hin & Hk & Hp)]; [auto|].
           right. exists b'. split; [right; assumption|auto].
        -- intros [H|(b' & Hin & Hk & Hp)]; [auto|].
           apply elem_of_cons in Hin as [->|Hin]; [congruence|].
           right. exists b'. auto.
    + destruct (IH items
                  (Js.set_add (virtualPrefix delimiter prefixLength b) set))
        as (H1 & H2 & H3).
      cbv zeta in *. rewrite H1. split; [|split].
      * rewrite filter_cons. rewrite decide_False by congruence.
        reflexivity.
      * intros Hs. apply H2, set_add_NoDup, Hs.
      * intros p. rewrite H3, set_add_elem. split.
        -- intros [[H| ->]|(b' & Hin & Hk & Hp)]; [auto| |].
           ++ right. exists b. split; [left|auto].
           ++ right. exists b'. split; [right; assumption|auto].
        -- intros [H|(b' & Hin & Hk & Hp)]; [auto|].
           apply elem_of_cons in Hin as [->|Hin]; [auto|].
           right. exists b'. auto.
Qed.

(** What a page is split into. *)
Lemma partition_spec blobs :
  let out := partition delimiter prefixLength blobs in
  fst out = map normalizeDeleted
              (filter (fun b => isBlobItem delimiter prefixLength b = true)
                      blobs)
  /\ NoDup (snd out)
  /\ (forall p, p ∈ snd out <->
        exists b, b ∈ blobs
                  /\ isBlobItem delimiter prefixLength b = false
                  /\ p = virtualPrefix delimiter prefixLength b).
Proof.
  unfold partition.
  destruct (classify_fold blobs [] []) as (H1 & H2 & H3). cbv zeta in *.
  split; [exact H1|]. split; [apply H2, NoDup_nil_2|].
  intros p. rewrite H3. split; [|auto].
  intros [H|H]; [inversion H|exact H].
Qed.
End Partition.

(* ===================================================================== *)
(** ** Container mutations *)
(* ===================================================================== *)

Section ContainerMutations.
Context {S : Type} (env : Env S).
Import ContainerHandler.

Lemma mutate_run m context w :
  let stamp := (etagOf env (issued w), Context.startTime context) in
  exists c,
    targets m c
    /\ stampOf c = Some stamp
    /\ snd (mutate env m context w)
       = mkWorld (snd (metadataStore env c (store w)))
           (Datatypes.S (issued w)) (trace w ++ [CallStore c])
    /\ (forall pair, fst (mutate env m context w) = Returned pair ->
          pair = stamp)
    /\ (forall reply s', metadataStore env c (store w) = (Returned reply, s') ->
          fst (mutate env m context w) = Returned stamp).
Proof.
  assert (Hsplit : forall c (out : Outcome (string * Z) * World S)
                     (stamp : string * Z),
    targets m c -> stampOf c = Some stamp ->
    out = match metadataStore env c (store w) with
          | (Returned _, s) =>
              (Returned stamp,
               mkWorld s (Datatypes.S (issued w)) (trace w ++ [CallStore c]))
          | (Threw e, s) =>
              (Threw e,
               mkWorld s (Datatypes.S (issued w)) (trace w ++ [CallStore c]))
          end ->
    exists c,
      targets m c /\ stampOf c = Some stamp
      /\ snd out = mkWorld (snd (metadataStore env c (store w)))
                     (Datatypes.S (issued w)) (trace w ++ [CallStore c])
      /\ (forall pair, fst out = Returned pair -> pair = stamp)
      /\ (forall reply s',
            metadataStore env c (store w) = (Returned reply, s') ->
            fst out = Returned stamp)).
  { intros c out stamp Ht Hs ->. exists c.
    split; [exact Ht|]. split; [exact Hs|].
    destruct (metadataStore env c (store w)) as [[r|e] s]; simpl;
      (split; [reflexivity|]);
      (split; [intros pair H; inversion H; reflexivity
              |intros reply s' H; inversion H; reflexivity]). }
  destruct m as [o|o|o]; unfold mutate, mbind, M_bind, bind.
  - apply (Hsplit (createContainer
                     (createdContainer o context (etagOf env (issued w)))));
      [exact I|reflexivity|].
    pose proof (create_run env o context w) as Hrun. cbv zeta in Hrun.
    rewrite Hrun. destruct (metadataStore env _ (store w)) as [[r|e] s];
      reflexivity.
  - apply (Hsplit (setContainerMetadata (Context.account context)
                     (Context.container context) (Context.startTime context)
                     (etagOf env (issued w))
                     (SetMetadataOptions.metadata o)));
      [exact I|reflexivity|].
    pose proof (setMetadata_run env o context w) as Hrun. cbv zeta in Hrun.
    rewrite Hrun. destruct (metadataStore env _ (store w)) as [[r|e] s];
      reflexivity.
  - apply (Hsplit (setContainerACL (Context.account context)
                     (Context.container context)
                     (ContainerACL.mk (Context.startTime context)
                        (etagOf env (issued w))
                        (SetAccessPolicyOptions.access o)
                        (SetAccessPolicyOptions.containerAcl o)
                        (SetAccessPolicyOptions.leaseAccessConditions o))));
      [exact I|reflexivity|].
    pose proof (setAccessPolicy_run env o context w) as Hrun.
    cbv zeta in Hrun.
    rewrite Hrun. destruct (metadataStore env _ (store w)) as [[r|e] s];
      reflexivity.
Qed.

(** C8: each of create, setMetadata and setAccessPolicy draws one new
    etag from the generator and hands it to the store together with the
    request's start time as lastModified, in the single store call it
    makes; a response, when there is one, carries that very pair, and
    there is one whenever the store accepts the call.  The next
    mutation draws the next value of the generator, so its etag differs
    from this one as soon as the generator does not repeat itself. *)
Theorem mutation_stamps_fresh_etag m context w :
  let stamp := (etagOf env (issued w), Context.startTime context) in
  let out := mutate env m context w in
  (exists c, targets m c /\ stampOf c = Some stamp
             /\ trace (snd out) = trace w ++ [CallStore c]
             /\ (forall reply s',
                   metadataStore env c (store w) = (Returned reply, s') ->
                   fst out = Returned stamp))
  /\ (forall pair, fst out = Returned pair -> pair = stamp)
  /\ issued (snd out) = Datatypes.S (issued w)
  /\ (forall m' context',
        etagOf env (Datatypes.S (issued w)) <> etagOf env (issued w) ->
        exists c' etag' lastModified',
          trace (snd (mutate env m' context' (snd out)))
            = trace (snd out) ++ [CallStore c']
          /\ targets m' c'
          /\ stampOf c' = Some (etag', lastModified')
          /\ etag' <> fst stamp).
Proof.
  intros stamp out.
  destruct (mutate_run m context w) as (c & Ht & Hs & Hw & Hr & Hok).
  fold out in Hw, Hr, Hok. fold stamp in Hs, Hr, Hok.
  split; [|split; [|split]].
  - exists c. rewrite Hw. simpl. auto.
  - exact Hr.
  - rewrite Hw. reflexivity.
  - intros m' context' Hfresh.
    destruct (mutate_run m' context' (snd out))
      as (c' & Ht' & Hs' & Hw' & _ & _).
    exists c', (etagOf env (issued (snd out))), (Context.startTime context').
    rewrite Hw'. simpl. repeat split; try assumption.
    rewrite Hw. simpl. exact Hfresh.
Qed.

(** C10: [create] hands the store a container whose lease is Unlocked
    and Available and which has neither an immutability policy nor a
    legal hold; when the store accepts it the response has status 201,
    the etag just generated and the request's start time. *)
Theorem create_initializes_container options context w :
  let etag := etagOf env (issued w) in
  let c := createdContainer options context etag in
  let p := ContainerModel.properties c in
  let out := create env options context w in
  trace (snd out) = trace w ++ [CallStore (createContainer c)]
  /\ ContainerProperties.leaseStatus p = Unlocked
  /\ ContainerProperties.leaseState p = Available
  /\ ContainerProperties.hasImmutabilityPolicy p = false
  /\ ContainerProperties.hasLegalHold p = false
  /\ ContainerProperties.etag p = etag
  /\ ContainerProperties.lastModified p = Context.startTime context
  /\ ((exists r, fst out = Returned r) <->
      (exists s', metadataStore env (createContainer c) (store w)
                  = (Returned tt, s')))
  /\ (forall r, fst out = Returned r ->
        CreateResponse.statusCode r = 201
        /\ CreateResponse.eTag r = etag
        /\ CreateResponse.lastModified r = Context.startTime context).
Proof.
  intros etag c p out.
  pose proof (create_run env options context w) as Hrun. cbv zeta in Hrun.
  fold etag in Hrun. fold c in Hrun. fold out in Hrun.
  split; [|do 6 (split; [reflexivity|]); split].
  - rewrite Hrun.
    destruct (metadataStore env (createContainer c) (store w))
      as [[[]|e] s]; reflexivity.
  - rewrite Hrun.
    destruct (metadataStore env (createContainer c) (store w))
      as [[[]|e] s]; simpl.
    + split; intros _; [exists s|eexists]; reflexivity.
    + split; intros [x Hx]; discriminate.
  - intros r. rewrite Hrun.
    destruct (metadataStore env (createContainer c) (store w))
      as [[[]|e] s]; simpl; intros H; inversion H; auto.
Qed.
End ContainerMutations.

(* ===================================================================== *)
(** ** Blob listings *)
(* ===================================================================== *)

Section BlobListings.
Context {S : Type} (env : Env S).
Import ContainerHandler.

Lemma normalizeDeleted_spec blob :
  BlobModel.name (normalizeDeleted blob) = BlobModel.name blob
  /\ BlobModel.snapshot (normalizeDeleted blob) = BlobModel.snapshot blob
  /\ BlobModel.deleted (normalizeDeleted blob)
     = (if decide (BlobModel.deleted blob = Some true)
        then Some true else None)
  /\ BlobModel.deleted (normalizeDeleted blob) <> Some false.
Proof.
  destruct blob as [n sn [[|]|]]; simpl; repeat split; discriminate.
Qed.

(** What a hierarchical listing returns, in terms of the scanned page:
    the working delimiter, the items (the blobs without a delimiter
    after the prefix, in scan order) and the prefixes (no duplicates,
    one for each value of [virtualPrefix] met in the page). *)
Lemma hierarchy_grouping delimiter options context w r w' :
  listBlobHierarchySegment env delimiter options context w
    = (Returned r, w') ->
  exists s1 blobs nextMarker prefixes,
    let d := effectiveDelimiter delimiter in
    let k := Js.length (Js.str_or (ListBlobsOptions.prefix options) "") in
    metadataStore env (hierarchyScan options context) s1
      = (Returned (blobs, nextMarker), store w')
    /\ ListBlobsResponse.delimiter r = d
    /\ ListBlobsResponse.blobItems r
       = map normalizeDeleted
           (filter (fun b => isBlobItem d k b = true) blobs)
    /\ ListBlobsResponse.blobPrefixes r = Some prefixes
    /\ NoDup prefixes
    /\ (forall p, p ∈ prefixes <->
          exists b, b ∈ blobs /\ isBlobItem d k b = false
                    /\ p = virtualPrefix d k b).
Proof.
  intros Hrun.
  destruct (listBlobHierarchySegment_returned env _ _ _ _ _ _ Hrun)
    as (s1 & blobs & nextMarker & _ & Hscan & _ & _ & ->).
  exists s1, blobs, nextMarker. eexists. cbv zeta.
  split; [exact Hscan|]. simpl.
  destruct (partition_spec (effectiveDelimiter delimiter)
              (Js.length (Js.str_or (ListBlobsOptions.prefix options) ""))
              blobs) as (H1 & H2 & H3).
  cbv zeta in *. repeat split; try assumption; apply H3.
Qed.

(** C6: a blob item of a flat or hierarchical page is a scanned blob
    whose [deleted] flag is [true] when the stored flag is exactly
    [true] and absent otherwise; it is never [false]. *)
Theorem listed_blob_deleted_normalized delimiter options context w r w' :
  listBlobFlatSegment env options context w = (Returned r, w')
  \/ listBlobHierarchySegment env delimiter options context w
     = (Returned r, w') ->
  forall item, item ∈ ListBlobsResponse.blobItems r ->
    BlobModel.deleted item <> Some false
    /\ exists s1 blobs nextMarker blob,
         (metadataStore env (flatScan options context) s1
            = (Returned (blobs, nextMarker), store w')
          \/ metadataStore env (hierarchyScan options context) s1
            = (Returned (blobs, nextMarker), store w'))
         /\ blob ∈ blobs
         /\ BlobModel.name item = BlobModel.name blob
         /\ BlobModel.snapshot item = BlobModel.snapshot blob
         /\ BlobModel.deleted item
            = (if decide (BlobModel.deleted blob = Some true)
               then Some true else None).
Proof.
  intros [Hflat|Hhier] item Hitem.
  - destruct (listBlobFlatSegment_returned env _ _ _ _ _ Hflat)
      as (s1 & blobs & nextMarker & _ & Hscan & _ & _ & ->).
    simpl in Hitem. apply list_elem_of_fmap in Hitem as (blob & -> & Hin).
    destruct (normalizeDeleted_spec blob) as (Hn & Hs & Hd & Hf).
    split; [exact Hf|].
    exists s1, blobs, nextMarker, blob. auto.
  - destruct (hierarchy_grouping _ _ _ _ _ _ Hhier)
      as (s1 & blobs & nextMarker & prefixes & Hscan & _ & Hitems & _).
    rewrite Hitems in Hitem.
    apply list_elem_of_fmap in Hitem as (blob & -> & Hin).
    apply list_elem_of_filter in Hin as [_ Hin].
    destruct (normalizeDeleted_spec blob) as (Hn & Hs & Hd & Hf).
    split; [exact Hf|].
    exists s1, blobs, nextMarker, blob. auto.
Qed.
End BlobListings.

(* ===================================================================== *)
(** ** Service properties, container listing and the two stubs *)
(* ===================================================================== *)

Section Service.
Context {S : Type} (env : Env S).
Import ServiceHandler.


Lemma getProperties_run context w :
  let call := getServiceProperties (Context.account context) in
  let w' s := mkWorld s (issued w) (trace w ++ [CallStore call]) in
  getProperties env context w =
    match metadataStore env call (store w) with
    | (Returned stored, s) =>
        let p := storedProperties stored in
        (Returned
           (GetPropertiesResponse.mk
              (from_option ServicePropertiesModel.accountName
                 (Context.account context) stored)
              (StorageServiceProperties.mk
                 (Some (default [] (StorageServiceProperties.cors p)))
                 (Some (default (BLOB_API_VERSION env)
                          (StorageServiceProperties.defaultServiceVersion p)))
                 (Some (default defaultMetrics
                          (StorageServiceProperties.hourMetrics p)))
                 (Some (default defaultLogging
                          (StorageServiceProperties.logging p)))
                 (Some (default defaultMetrics
                          (StorageServiceProperties.minuteMetrics p)))
                 (Some (default defaultStaticWebsite
                          (StorageServiceProperties.staticWebsite p))))
              (Context.contextID context) 200 (BLOB_API_VERSION env)),
         w' s)
    | (Threw e, s) => (Threw e, w' s)
    end.
Proof.
  unfold getProperties. run_handler.
  destruct (metadataStore env _ (store w)) as [[stored|e] s];
    [|reflexivity].
  simpl. destruct stored as [[acc [c v h l m sw]]|]; simpl.
  - destruct c, v, h, l, m, sw; reflexivity.
  - reflexivity.
Qed.
End Service.

Section ServiceDefaults.
Context {S : Type} (env : Env S).
Import ServiceHandler.

(** C5, amended: [getProperties] asks the store once and, when the
    store answers, returns status 200 with every one of the six fields
    set: the stored value where the record has one, and otherwise (no
    record, or the field absent from it) the fixed default.  The
    defaults are an empty CORS list, the current API version, hour and
    minute metrics disabled with retention disabled, static website
    disabled, and a logging entry whose read, write and delete flags are
    all [true] with retention disabled. *)
Theorem getProperties_fills_defaults context w :
  let call := getServiceProperties (Context.account context) in
  let out := getProperties env context w in
  trace (snd out) = trace w ++ [CallStore call]
  /\ (forall stored s,
        metadataStore env call (store w) = (Returned stored, s) ->
        exists r,
          fst out = Returned r
          /\ GetPropertiesResponse.statusCode r = 200
          /\ let p := storedProperties stored in
             let q := GetPropertiesResponse.props r in
             StorageServiceProperties.cors q
               = Some (default [] (StorageServiceProperties.cors p))
             /\ StorageServiceProperties.hourMetrics q
               = Some (default defaultMetrics
                         (StorageServiceProperties.hourMetrics p))
             /\ StorageServiceProperties.logging q
               = Some (default defaultLogging
                         (StorageServiceProperties.logging p))
             /\ StorageServiceProperties.minuteMetrics q
               = Some (default defaultMetrics
                         (StorageServiceProperties.minuteMetrics p))
             /\ StorageServiceProperties.defaultServiceVersion q
               = Some (default (BLOB_API_VERSION env)
                         (StorageServiceProperties.defaultServiceVersion p))
             /\ StorageServiceProperties.staticWebsite q
               = Some (default defaultStaticWebsite
                         (StorageServiceProperties.staticWebsite p)))
  /\ (forall r, fst out = Returned r ->
        exists stored s,
          metadataStore env call (store w) = (Returned stored, s))
  /\ Metrics.enabled defaultMetrics = false
  /\ Metrics.retentionPolicy defaultMetrics
       = Some (RetentionPolicy.mk false None)
  /\ StaticWebsite.enabled defaultStaticWebsite = false
  /\ Logging.read defaultLogging = true
  /\ Logging.write defaultLogging = true
  /\ Logging.deleteProperty defaultLogging = true
  /\ RetentionPolicy.enabled (Logging.retentionPolicy defaultLogging)
       = false.
Proof.
  intros call out.
  pose proof (getProperties_run env context w) as Hrun. cbv zeta in Hrun.
  fold call in Hrun. fold out in Hrun.
  split; [|split; [|split; [|repeat split]]].
  - rewrite Hrun.
    destruct (metadataStore env call (store w)) as [[stored|e] s];
      reflexivity.
  - intros stored s Hstore. rewrite Hrun, Hstore. simpl.
    eexists. split; [reflexivity|]. simpl. repeat split.
  - intros r. rewrite Hrun.
    destruct (metadataStore env call (store w)) as [[stored|e] s]; simpl.
    + intros _. exists stored, s. reflexivity.
    + discriminate.
Qed.

Lemma listContainersSegment_run options context w :
  let maxresults :=
    Js.num_or (ListContainersOptions.maxresults options)
      LIST_CONTAINERS_MAX_RESULTS_DEFAULT in
  let prefix := Js.str_or (ListContainersOptions.prefix options) "" in
  let marker :=
    Js.parseInt10 (Js.str_or (ListContainersOptions.marker options) "0") in
  let call :=
    listContainers (Context.account context) prefix maxresults marker in
  let w' s := mkWorld s (issued w) (trace w ++ [CallStore call]) in
  listContainersSegment env options context w =
    match metadataStore env call (store w) with
    | (Returned containers, s) =>
        (Returned
           (ListContainersResponse.mk (fst containers) maxresults
              (markerText (snd containers)) prefix
              (Context.endpoint context ++ "/" ++ Context.account context)%string
              200 (Context.contextID context) (BLOB_API_VERSION env)),
         w' s)
    | (Threw e, s) => (Threw e, w' s)
    end.
Proof.
  unfold listContainersSegment. run_handler.
  destruct (metadataStore env _ (store w)) as [[containers|e] s];
    reflexivity.
Qed.

(** C9, amended: both stubs throw a plain [Error] whose message is
    "Method not implemented.", for every input, without calling the
    store or the network. *)
Theorem unimplemented_operations_throw_plain_error
    (A : Type) keyInfo body contentLength multipartContentType context
    (w : World S) :
  getUserDelegationKey (A := A) keyInfo context w
    = (Threw (PlainError "Method not implemented."), w)
  /\ submitBatch (A := A) body contentLength multipartContentType
       context w
    = (Threw (PlainError "Method not implemented."), w).
Proof. split; reflexivity. Qed.
End ServiceDefaults.

Section PageDefaults.
Context {S : Type} (env : Env S).

End PageDefaults.

(* ===================================================================== *)
(** ** Validation of a copy source *)
(* ===================================================================== *)

Section CopySource.
Context {S : Type} (env : Env S).
Import BaseBlobHandler.

Lemma strip_newlines_no_line_feed s :
  ~ In "010"%char (list_ascii_of_string (Js.strip_newlines s)).
Proof.
  induction s as [|c s IH]; simpl; [tauto|].
  destruct (Ascii.eqb c "010") eqn:Hc; [exact IH|].
  simpl. intros [->|H]; [|exact (IH H)].
  rewrite Ascii.eqb_refl in Hc. discriminate.
Qed.


(** C3: when the host of the parsed source differs from the Host
    header of the request (read as the empty string when the header is
    missing or empty), [validateCopySource] throws
    CannotVerifyCopySource with status 404 and the message "The
    specified resource does not exist" and leaves the world as it was:
    nothing was sent.  When the source does not parse as a URL it
    throws InvalidHeaderValue naming [x-ms-copy-source] and the
    source. *)
Theorem validateCopySource_rejects_foreign_host
    copySource sourceAccount context (w : World S) :
  let currentServer :=
    Js.str_or (Context.requestHeaders context !! "Host") "" in
  let out := validateCopySource env copySource sourceAccount context w in
  (forall url,
     newURL env copySource = Some url ->
     currentServer <> URL.host url ->
     out = (Threw (Storage (CannotVerifyCopySource
                              (Context.contextID context) 404
                              "The specified resource does not exist")),
            w))
  /\ (newURL env copySource = None ->
      out = (Threw (Storage (InvalidHeaderValue
                               (Context.contextID context)
                               "x-ms-copy-source" copySource)),
             w)).
Proof.
  intros currentServer out. subst out.
  unfold validateCopySource, NewUriFromCopySource. split.
  - intros url Hurl Hhost. rewrite Hurl. run_handler.
    fold currentServer.
    destruct (String.eqb currentServer (URL.host url)) eqn:He.
    + apply String.eqb_eq in He. contradiction.
    + reflexivity.
  - intros Hurl. rewrite Hurl. reflexivity.
Qed.

End CopySource.

(* ===================================================================== *)
(** ** Delimiters of one character *)
(* ===================================================================== *)

(** The position found by [indexOf] and the cut made by [substr], and
    what follows from them when the delimiter is a single character. *)
Section Delimiters.
Import ContainerHandler.

Lemma skip_empty n : Js.skip n "" = ""%string.
Proof. destruct n; reflexivity. Qed.

Lemma skip_skip a b s : Js.skip b (Js.skip a s) = Js.skip (a + b) s.
Proof.
  revert s. induction a as [|a IH]; intros s; [reflexivity|].
  destruct s as [|c s]; simpl; [apply skip_empty|apply IH].
Qed.

Lemma skip_nonempty_lt n s :
  Js.skip n s <> ""%string -> (n < String.length s)%nat.
Proof.
  revert s. induction n as [|n IH]; intros [|c s] H; simpl in *;
    try congruence; try lia.
  specialize (IH s H). lia.
Qed.

(** [scan] returns the first position from which the text starts with
    the searched string, if there is one. *)
Lemma scan_spec search s k :
  match Js.scan search s k with
  | Some i =>
      exists j, i = (k + j)%nat
                /\ String.prefix search (Js.skip j s) = true
                /\ forall j', (j' < j)%nat ->
                     String.prefix search (Js.skip j' s) = false
  | None => forall j, String.prefix search (Js.skip j s) = false
  end.
Proof.
  revert k. induction s as [|c s IH]; intros k.
  - cbn [Js.scan]. destruct (String.prefix search "") eqn:Hp.
    + exists 0%nat. repeat split; [lia|exact Hp|intros j' Hj'; lia].
    + intros j. rewrite skip_empty. exact Hp.
  - cbn [Js.scan]. destruct (String.prefix search (String c s)) eqn:Hp.
    + exists 0%nat. repeat split; [lia|exact Hp|intros j' Hj'; lia].
    + specialize (IH (Datatypes.S k)).
      destruct (Js.scan search s (Datatypes.S k)) as [i|].
      * destruct IH as (j & -> & Hj & Hbefore).
        exists (Datatypes.S j). repeat split; [lia|exact Hj|].
        intros [|j'] Hj'; [exact Hp|]. apply Hbefore. lia.
      * intros [|j]; [exact Hp|apply IH].
Qed.

(** [indexOf] either answers [-1], and the searched string occurs
    nowhere from the start position on, or answers the first position at
    or after the start position where it occurs. *)
Lemma indexOf_spec s search position :
  let start := Nat.min (Z.to_nat position) (String.length s) in
  (Js.indexOf s search position = -1
   /\ forall j, String.prefix search (Js.skip (start + j) s) = false)
  \/ (exists i,
        Js.indexOf s search position = Z.of_nat i
        /\ (start <= i)%nat
        /\ String.prefix search (Js.skip i s) = true
        /\ forall i', (start <= i' < i)%nat ->
             String.prefix search (Js.skip i' s) = false).
Proof.
  intros start. unfold Js.indexOf. fold start.
  pose proof (scan_spec search (Js.skip start s) start) as H.
  destruct (Js.scan search (Js.skip start s) start) as [i|].
  - right. destruct H as (j & -> & Hj & Hbefore).
    exists (start + j)%nat. rewrite skip_skip in Hj.
    repeat split; [lia|exact Hj|].
    intros i' Hi'. specialize (Hbefore (i' - start)%nat).
    rewrite skip_skip in Hbefore.
    replace (start + (i' - start))%nat with i' in Hbefore by lia.
    apply Hbefore. lia.
  - left. split; [reflexivity|]. intros j. rewrite <- skip_skip. apply H.
Qed.

Lemma substring_split j n s :
  String.substring 0 (j + n) s
  = (String.substring 0 j s ++ String.substring 0 n (Js.skip j s))%string.
Proof.
  revert s. induction j as [|j IH]; intros s.
  - simpl. destruct s; reflexivity.
  - destruct s as [|c s]; simpl.
    + destruct n; reflexivity.
    + rewrite IH. reflexivity.
Qed.

(** Cutting just past an occurrence keeps the text before it and the
    searched string itself. *)
Lemma cut_past_occurrence search s i :
  String.prefix search (Js.skip i s) = true ->
  String.substring 0 (i + String.length search) s
  = (String.substring 0 i s ++ search)%string.
Proof.
  intros H. rewrite substring_split.
  apply String.prefix_correct in H. rewrite H. reflexivity.
Qed.

Lemma substr_from_start s (n : nat) :
  Js.substr s 0 (Z.of_nat n) = String.substring 0 n s.
Proof.
  unfold Js.substr. simpl. destruct n as [|n].
  - simpl. destruct s; reflexivity.
  - replace (Z.of_nat (Datatypes.S n) <=? 0)%Z with false
      by (symmetry; apply Z.leb_gt; lia).
    rewrite Nat2Z.id. reflexivity.
Qed.

(** For any delimiter, the name cut just past the delimiter found is the
    name up to the delimiter followed by the delimiter. *)
Lemma cutPastDelimiter_spec delimiter prefixLength blob :
  isBlobItem delimiter prefixLength blob = false ->
  exists i,
    delimiterPos delimiter prefixLength blob = Z.of_nat i
    /\ cutPastDelimiter delimiter prefixLength blob
       = (String.substring 0 i (BlobModel.name blob) ++ delimiter)%string.
Proof.
  unfold isBlobItem, cutPastDelimiter, delimiterPos. intros Hpos.
  destruct (indexOf_spec (BlobModel.name blob) delimiter prefixLength)
    as [[Hnone _]|(i & Hi & _ & Hocc & _)].
  - rewrite Hnone in Hpos. discriminate.
  - exists i. split; [exact Hi|]. rewrite Hi. unfold Js.length.
    rewrite <- Nat2Z.inj_add, substr_from_start.
    apply cut_past_occurrence, Hocc.
Qed.

(** A delimiter of one character: the prefix emitted is the name cut
    just past the delimiter. *)
Lemma virtualPrefix_single delimiter prefixLength blob :
  String.length delimiter = 1%nat ->
  virtualPrefix delimiter prefixLength blob
  = cutPastDelimiter delimiter prefixLength blob.
Proof.
  intros Hlen. unfold virtualPrefix, cutPastDelimiter, Js.length.
  rewrite Hlen. reflexivity.
Qed.

Lemma prefix_under_cut c n n' i :
  String.prefix (String c "") (Js.skip i n) = true ->
  String.prefix (String.substring 0 (i + 1) n) n' = true ->
  String.prefix (String c "") (Js.skip i n') = true.
Proof.
  revert n n'. induction i as [|i IH]; intros n n' Hocc Hpre.
  - destruct n as [|a t]; [discriminate|]. simpl in Hocc.
    destruct (ascii_dec c a) as [->|]; [|discriminate].
    simpl in Hpre. destruct n' as [|a' t'].
    + simpl in Hpre. destruct t; discriminate.
    + simpl. replace (String.substring 0 0 t) with ""%string in Hpre
        by (destruct t; reflexivity).
      simpl in Hpre. destruct (ascii_dec a a'); [exact Hpre|discriminate].
  - destruct n as [|a t]; [discriminate|].
    simpl in Hocc. simpl in Hpre.
    destruct n' as [|a' t']; [discriminate|].
    simpl in Hpre. destruct (ascii_dec a a'); [|discriminate].
    simpl. exact (IH t t' Hocc Hpre).
Qed.

(** A delimiter of one character: a blob listed as an item does not
    begin with any prefix emitted for another blob of the page. *)
Lemma item_not_under_prefix delimiter prefixLength blob item :
  String.length delimiter = 1%nat ->
  isBlobItem delimiter prefixLength blob = false ->
  isBlobItem delimiter prefixLength item = true ->
  String.prefix (virtualPrefix delimiter prefixLength blob)
    (BlobModel.name item) = false.
Proof.
  intros Hlen Hblob Hitem.
  destruct delimiter as [|c [|? ?]]; try discriminate. clear Hlen.
  unfold isBlobItem, virtualPrefix, delimiterPos in *.
  destruct (indexOf_spec (BlobModel.name blob) (String c "") prefixLength)
    as [[Hnone _]|(i & Hi & Hstart & Hocc & _)].
  { rewrite Hnone in Hblob. discriminate. }
  destruct (indexOf_spec (BlobModel.name item) (String c "") prefixLength)
    as [[_ Hnowhere]|(i' & Hi' & _)].
  2:{ rewrite Hi' in Hitem. apply Z.ltb_lt in Hitem. lia. }
  rewrite Hi. replace (Z.of_nat i + 1) with (Z.of_nat (i + 1)) by lia.
  rewrite substr_from_start.
  destruct (String.prefix _ (BlobModel.name item)) eqn:Hpre; [|reflexivity].
  pose proof (prefix_under_cut c _ _ i Hocc Hpre) as Hocc'.
  assert (Hlt : (i < String.length (BlobModel.name blob))%nat).
  { apply skip_nonempty_lt. intros He. rewrite He in Hocc. discriminate. }
  specialize (Hnowhere
    (i - Nat.min (Z.to_nat prefixLength)
           (String.length (BlobModel.name item)))%nat).
  replace (Nat.min (Z.to_nat prefixLength)
             (String.length (BlobModel.name item))
           + (i - Nat.min (Z.to_nat prefixLength)
                    (String.length (BlobModel.name item))))%nat
    with i in Hnowhere by lia.
  congruence.
Qed.
End Delimiters.

Section SingleCharacterDelimiter.
Context {S : Type} (env : Env S).
Import ContainerHandler.

(** With a delimiter of one character (the default [/] included) a
    hierarchical page is as the grouping rule describes it: every prefix
    returned is the name of a scanned blob cut just past the first
    delimiter after the listing prefix, it is returned once, and no blob
    item of the page begins with it. *)
Lemma hierarchy_single_character_delimiter
    delimiter options context w r w' :
  String.length (effectiveDelimiter delimiter) = 1%nat ->
  listBlobHierarchySegment env delimiter options context w
    = (Returned r, w') ->
  exists prefixes,
    let d := effectiveDelimiter delimiter in
    let k := Js.length (Js.str_or (ListBlobsOptions.prefix options) "") in
    ListBlobsResponse.blobPrefixes r = Some prefixes
    /\ NoDup prefixes
    /\ forall p, p ∈ prefixes ->
         (exists s1 blobs nextMarker b i,
            metadataStore env (hierarchyScan options context) s1
              = (Returned (blobs, nextMarker), store w')
            /\ b ∈ blobs
            /\ delimiterPos d k b = Z.of_nat i
            /\ p = (String.substring 0 i (BlobModel.name b) ++ d)%string)
         /\ forall item,
              item ∈ ListBlobsResponse.blobItems r ->
              String.prefix p (BlobModel.name item) = false.
Proof.
  intros Hlen Hrun.
  destruct (hierarchy_grouping env _ _ _ _ _ _ Hrun)
    as (s1 & blobs & nextMarker & prefixes
        & Hscan & _ & Hitems & Hprefixes & Hnodup & Hmem).
  exists prefixes. cbv zeta in *. split; [exact Hprefixes|].
  split; [exact Hnodup|].
  intros p Hp. apply Hmem in Hp as (b & Hb & Hkind & ->). split.
  - destruct (cutPastDelimiter_spec _ _ _ Hkind) as (i & Hi & Hcut).
    exists s1, blobs, nextMarker, b, i.
    rewrite (virtualPrefix_single _ _ _ Hlen). auto.
  - intros item Hitem. rewrite Hitems in Hitem.
    apply list_elem_of_fmap in Hitem as (b' & -> & Hb').
    apply list_elem_of_filter in Hb' as [Hkind' _].
    destruct (normalizeDeleted_spec b') as (-> & _).
    apply item_not_under_prefix; assumption.
Qed.
End SingleCharacterDelimiter.

(* ===================================================================== *)
(** ** The statements at concrete requests *)
(* ===================================================================== *)

(** C1: with the two-character delimiter [--] and a page holding [a--b]
    and [a-c], the delimiter is found in [a--b] at position 1 and the
    name cut just past it is [a--]; the listing returns the prefix [a-]
    instead, and [a-c], which begins with that prefix, as a blob item. *)
Theorem hierarchy_two_character_delimiter :
  exists r w',
    ContainerHandler.listBlobHierarchySegment
      (Fixture.env [Fixture.blob "a--b" None; Fixture.blob "a-c" None]
         None None)
      "--" Fixture.plain Fixture.context Fixture.world = (Returned r, w')
    /\ ContainerHandler.ListBlobsResponse.delimiter r = "--"
    /\ delimiterPos "--" 0 (Fixture.blob "a--b" None) = 1
    /\ cutPastDelimiter "--" 0 (Fixture.blob "a--b" None) = "a--"
    /\ ContainerHandler.ListBlobsResponse.blobPrefixes r = Some ["a-"]
    /\ ContainerHandler.ListBlobsResponse.blobItems r
       = [Fixture.blob "a-c" None]
    /\ String.prefix "a-" "a-c" = true.
Proof. eexists _, _. split; [lazy; reflexivity|]. repeat split. Qed.

(** With the delimiter [/] the page of the three blobs [photos/a.jpg],
    [photos/b.jpg] and [readme.txt] gives one item and one prefix. *)
Example hierarchy_slash_delimiter :
  exists r w',
    ContainerHandler.listBlobHierarchySegment
      (Fixture.env [Fixture.blob "photos/a.jpg" None;
                    Fixture.blob "photos/b.jpg" None;
                    Fixture.blob "readme.txt" None] None None)
      "" Fixture.plain Fixture.context Fixture.world = (Returned r, w')
    /\ ContainerHandler.ListBlobsResponse.delimiter r = "/"
    /\ ContainerHandler.ListBlobsResponse.blobPrefixes r = Some ["photos/"]
    /\ ContainerHandler.ListBlobsResponse.blobItems r
       = [Fixture.blob "readme.txt" None].
Proof. eexists _, _. split; [lazy; reflexivity|]. repeat split. Qed.

Example parseInt10_decimal : Js.parseInt10 "25" = Some 25.
Proof. reflexivity. Qed.

Example parseInt10_not_a_number : Js.parseInt10 "abc" = None.
Proof. reflexivity. Qed.

(** C5: for an account without a stored record the logging entry that
    comes back has its read, write and delete flags set, so the
    properties are not "all disabled". *)
Lemma fresh_account_logging_not_disabled :
  exists r w',
    ServiceHandler.getProperties Fixture.quiet Fixture.context Fixture.world
      = (Returned r, w')
    /\ ~ allDisabled (BLOB_API_VERSION Fixture.quiet)
           (ServiceHandler.GetPropertiesResponse.props r).
Proof.
  eexists _, _. split; [lazy; reflexivity|].
  intros (_ & _ & (l & Hl & Hread & _) & _).
  simpl in Hl. inversion Hl; subst l. discriminate Hread.
Qed.

(** C9: what the two stubs throw carries no storage error code. *)
Lemma unimplemented_operations_not_typed :
  ~ typedFailure
      (fst (ServiceHandler.getUserDelegationKey (S := unit) (A := unit)
              (ServiceHandler.KeyInfo.mk "" "") Fixture.context
              Fixture.world))
  /\ ~ typedFailure
         (fst (ServiceHandler.submitBatch (S := unit) (A := unit)
                 "" 0 "multipart/mixed" Fixture.context Fixture.world)).
Proof. split; intros [e He]; discriminate He. Qed.


(** A source on another host, and a source that is no URL. *)
Lemma validateCopySource_rejects_foreign_host_witness :
  BaseBlobHandler.validateCopySource Fixture.quiet Fixture.otherHost
    "devstoreaccount1" Fixture.context Fixture.world
  = (Threw (Storage (CannotVerifyCopySource "req-1" 404
                       "The specified resource does not exist")),
     Fixture.world)
  /\ BaseBlobHandler.validateCopySource Fixture.quiet Fixture.notAUrl
       "devstoreaccount1" Fixture.context Fixture.world
     = (Threw (Storage (InvalidHeaderValue "req-1" "x-ms-copy-source"
                          Fixture.notAUrl)),
        Fixture.world).
Proof.
  split.
  - apply (proj1 (validateCopySource_rejects_foreign_host Fixture.quiet
                    Fixture.otherHost "devstoreaccount1" Fixture.context
                    Fixture.world)
             (URL.mk "example.com" Fixture.otherHost)).
    + vm_compute. reflexivity.
    + vm_compute. discriminate.
  - apply (proj2 (validateCopySource_rejects_foreign_host Fixture.quiet
                    Fixture.notAUrl "devstoreaccount1" Fixture.context
                    Fixture.world)).
    vm_compute. reflexivity.
Defined.


(** A stored record with one CORS rule and no logging entry: the rule is
    returned and the logging entry is the default one. *)
Lemma getProperties_fills_defaults_witness :
  exists r,
    fst (ServiceHandler.getProperties
           (Fixture.env [] (Some Fixture.storedRule) None)
           Fixture.context Fixture.world) = Returned r
    /\ ServiceHandler.GetPropertiesResponse.statusCode r = 200
    /\ StorageServiceProperties.cors (ServiceHandler.GetPropertiesResponse.props r)
       = Some [Fixture.oneRule]
    /\ StorageServiceProperties.logging
         (ServiceHandler.GetPropertiesResponse.props r)
       = Some ServiceHandler.defaultLogging.
Proof.
  destruct (getProperties_fills_defaults
              (Fixture.env [] (Some Fixture.storedRule) None)
              Fixture.context Fixture.world) as (_ & Hfill & _).
  destruct (Hfill (Some Fixture.storedRule) tt)
    as (r & Hr & Hstatus & Hcors & _ & Hlogging & _).
  - reflexivity.
  - exists r. repeat split; assumption.
Defined.

(** A flat page holding a blob stored with [deleted = false] and one
    stored with [deleted = true]. *)
Lemma listed_blob_deleted_normalized_witness :
  exists r w',
    ContainerHandler.listBlobFlatSegment
      (Fixture.env [Fixture.blob "a" (Some false);
                    Fixture.blob "b" (Some true)] None None)
      Fixture.plain Fixture.context Fixture.world = (Returned r, w')
    /\ forall item,
         item ∈ ContainerHandler.ListBlobsResponse.blobItems r ->
         BlobModel.deleted item <> Some false.
Proof.
  eexists _, _. split; [lazy; reflexivity|].
  intros item Hitem.
  exact (proj1 (listed_blob_deleted_normalized
                  (Fixture.env [Fixture.blob "a" (Some false);
                                Fixture.blob "b" (Some true)] None None)
                  "" Fixture.plain Fixture.context Fixture.world _ _
                  (or_introl eq_refl) item Hitem)).
Defined.


(** A setMetadata followed by a setAccessPolicy. *)
Lemma mutation_stamps_fresh_etag_witness :
  fst (mutate Fixture.quiet
         (SetMetadata (ContainerHandler.SetMetadataOptions.mk None))
         Fixture.context Fixture.world)
  = Returned ("0x0", 1700000000000)
  /\ exists c' etag' lastModified',
       trace (snd (mutate Fixture.quiet
                     (SetAccessPolicy
                        (ContainerHandler.SetAccessPolicyOptions.mk
                           None None None))
                     Fixture.context
                     (snd (mutate Fixture.quiet
                             (SetMetadata
                                (ContainerHandler.SetMetadataOptions.mk None))
                             Fixture.context Fixture.world))))
       = trace (snd (mutate Fixture.quiet
                       (SetMetadata
                          (ContainerHandler.SetMetadataOptions.mk None))
                       Fixture.context Fixture.world)) ++ [CallStore c']
       /\ stampOf c' = Some (etag', lastModified')
       /\ etag' <> "0x0".
Proof.
  destruct (mutation_stamps_fresh_etag Fixture.quiet
              (SetMetadata (ContainerHandler.SetMetadataOptions.mk None))
              Fixture.context Fixture.world)
    as ((c & _ & _ & _ & Hok) & _ & _ & Hnext).
  split.
  - lazy. reflexivity.
  - destruct (Hnext (SetAccessPolicy
                       (ContainerHandler.SetAccessPolicyOptions.mk
                          None None None)) Fixture.context)
      as (c' & etag' & lastModified' & Htrace & _ & Hstamp & Hfresh).
    + vm_compute. discriminate.
    + exists c', etag', lastModified'. repeat split; assumption.
Defined.

(** A create that the store accepts. *)
Lemma create_initializes_container_witness :
  exists r,
    fst (ContainerHandler.create Fixture.quiet
           (ContainerHandler.CreateOptions.mk None None)
           Fixture.context Fixture.world) = Returned r
    /\ ContainerHandler.CreateResponse.statusCode r = 201
    /\ ContainerHandler.CreateResponse.eTag r = "0x0"
    /\ ContainerHandler.CreateResponse.lastModified r = 1700000000000.
Proof.
  destruct (create_initializes_container Fixture.quiet
              (ContainerHandler.CreateOptions.mk None None)
              Fixture.context Fixture.world)
    as (_ & _ & _ & _ & _ & _ & _ & Hiff & Hresponse).
  destruct (proj2 Hiff) as [r Hr].
  - exists tt. reflexivity.
  - exists r. split; [exact Hr|]. exact (Hresponse r Hr).
Defined.

(* ===================================================================== *)
(** ** Further properties of the hierarchical listing *)
(* ===================================================================== *)

Section PageAccounting.
Context {S : Type} (env : Env S).
Import ContainerHandler.

Lemma set_add_length x (s : list string) :
  (length (Js.set_add x s) <= Datatypes.S (length s))%nat.
Proof.
  unfold Js.set_add. destruct (decide (x ∈ s)); [lia|].
  rewrite length_app. simpl. lia.
Qed.

Lemma classify_fold_length delimiter prefixLength blobs
    (items : list BlobModel.t) (set : list string) :
  let out :=
    fold_left (classify delimiter prefixLength) blobs (items, set) in
  (length (fst out) + length (snd out)
   <= length items + length set + length blobs)%nat.
Proof.
  revert items set. induction blobs as [|b blobs IH]; intros items set.
  - simpl. lia.
  - cbn [fold_left]. rewrite classify_eq.
    destruct (isBlobItem delimiter prefixLength b).
    + specialize (IH (items ++ [normalizeDeleted b]) set). cbv zeta in IH.
      rewrite length_app in IH. simpl in *. lia.
    + specialize (IH items
        (Js.set_add (virtualPrefix delimiter prefixLength b) set)).
      cbv zeta in IH.
      pose proof (set_add_length (virtualPrefix delimiter prefixLength b) set).
      simpl in *. lia.
Qed.

(** A hierarchical page accounts for the scan and never outgrows it:
    every scanned blob shows up, as an item when it has no delimiter
    after the listing prefix and through its prefix otherwise; every
    entry of the page comes from a scanned blob; and items and prefixes
    together are at most as many as the scanned blobs. *)
Theorem hierarchy_page_accounts_for_scan
    delimiter options context w r w' :
  listBlobHierarchySegment env delimiter options context w
    = (Returned r, w') ->
  exists s1 blobs nextMarker prefixes,
    let d := effectiveDelimiter delimiter in
    let k := Js.length (Js.str_or (ListBlobsOptions.prefix options) "") in
    metadataStore env (hierarchyScan options context) s1
      = (Returned (blobs, nextMarker), store w')
    /\ ListBlobsResponse.blobPrefixes r = Some prefixes
    /\ (forall b, b ∈ blobs ->
          if isBlobItem d k b
          then normalizeDeleted b ∈ ListBlobsResponse.blobItems r
          else virtualPrefix d k b ∈ prefixes)
    /\ (forall item, item ∈ ListBlobsResponse.blobItems r ->
          exists b, b ∈ blobs /\ isBlobItem d k b = true
                    /\ item = normalizeDeleted b)
    /\ (forall p, p ∈ prefixes ->
          exists b, b ∈ blobs /\ isBlobItem d k b = false
                    /\ p = virtualPrefix d k b)
    /\ (length (ListBlobsResponse.blobItems r) + length prefixes
        <= length blobs)%nat.
Proof.
  intros Hrun.
  destruct (listBlobHierarchySegment_returned env _ _ _ _ _ _ Hrun)
    as (s1 & blobs & nextMarker & _ & Hscan & _ & _ & ->).
  exists s1, blobs, nextMarker. eexists. cbv zeta.
  split; [exact Hscan|]. split; [reflexivity|]. simpl.
  set (d := effectiveDelimiter delimiter).
  set (k := Js.length (Js.str_or (ListBlobsOptions.prefix options) "")).
  destruct (partition_spec d k blobs) as (Hitems & _ & Hmem).
  cbv zeta in *. split; [|split; [|split]].
  - intros b Hb. destruct (isBlobItem d k b) eqn:Hkind.
    + rewrite Hitems. apply list_elem_of_fmap. exists b. split; [reflexivity|].
      apply list_elem_of_filter. auto.
    + apply Hmem. exists b. auto.
  - intros item Hitem. rewrite Hitems in Hitem.
    apply list_elem_of_fmap in Hitem as (b & -> & Hb).
    apply list_elem_of_filter in Hb as [Hkind Hb]. exists b. auto.
  - intros p Hp. apply Hmem, Hp.
  - pose proof (classify_fold_length d k blobs [] []) as Hlen.
    cbv zeta in Hlen. simpl in Hlen. exact Hlen.
Qed.
End PageAccounting.

Section PrefixProgress.
Context {S : Type} (env : Env S).
Import ContainerHandler.

Lemma prefix_empty s : String.prefix "" s = true.
Proof. destruct s; reflexivity. Qed.

Lemma prefix_length p s :
  String.prefix p s = true -> (String.length p <= String.length s)%nat.
Proof.
  revert s. induction p as [|a p IH]; intros [|b s] H; simpl in *;
    try lia; try discriminate.
  destruct (ascii_dec a b); [|discriminate]. specialize (IH s H). lia.
Qed.

Lemma substring_is_prefix n s :
  String.prefix (String.substring 0 n s) s = true.
Proof.
  revert s. induction n as [|n IH]; intros [|c s]; simpl; try reflexivity.
  destruct (ascii_dec c c); [apply IH|contradiction].
Qed.

Lemma substring_length_le n s :
  (n <= String.length s)%nat ->
  String.length (String.substring 0 n s) = n.
Proof.
  revert s. induction n as [|n IH]; intros [|c s] H; simpl in *;
    try reflexivity; try lia.
  rewrite IH; [reflexivity|lia].
Qed.

Lemma prefix_substring_le p n s :
  String.prefix p s = true -> (String.length p <= n)%nat ->
  String.prefix p (String.substring 0 n s) = true.
Proof.
  revert n s. induction p as [|a p IH]; intros n s H Hn.
  - apply prefix_empty.
  - destruct s as [|b s]; [discriminate|].
    destruct n as [|n]; [simpl in Hn; lia|].
    simpl in *. destruct (ascii_dec a b); [|discriminate].
    apply IH; [exact H|lia].
Qed.

Lemma effectiveDelimiter_nonempty delimiter :
  effectiveDelimiter delimiter <> ""%string.
Proof.
  unfold effectiveDelimiter.
  destruct (String.eqb delimiter "") eqn:He; [discriminate|].
  apply String.eqb_neq, He.
Qed.

(** Every prefix of a hierarchical page is the beginning of a scanned
    name; when that name begins with the listing prefix, so does the
    prefix returned, and it is strictly longer: listing again under a
    returned prefix always goes deeper.  This holds for every
    delimiter. *)
Theorem hierarchy_prefix_extends_listing_prefix
    delimiter options context w r w' prefixes :
  listBlobHierarchySegment env delimiter options context w
    = (Returned r, w') ->
  ListBlobsResponse.blobPrefixes r = Some prefixes ->
  forall p, p ∈ prefixes ->
    exists s1 blobs nextMarker b,
      let listed := Js.str_or (ListBlobsOptions.prefix options) "" in
      metadataStore env (hierarchyScan options context) s1
        = (Returned (blobs, nextMarker), store w')
      /\ b ∈ blobs
      /\ String.prefix p (BlobModel.name b) = true
      /\ (String.prefix listed (BlobModel.name b) = true ->
          String.prefix listed p = true
          /\ (String.length listed < String.length p)%nat).
Proof.
  intros Hrun Hprefixes p Hp.
  destruct (hierarchy_grouping env _ _ _ _ _ _ Hrun)
    as (s1 & blobs & nextMarker & prefixes'
        & Hscan & _ & _ & Hprefixes' & _ & Hmem).
  rewrite Hprefixes in Hprefixes'. inversion Hprefixes'; subst prefixes'.
  cbv zeta in Hmem. apply Hmem in Hp as (b & Hb & Hkind & ->).
  exists s1, blobs, nextMarker, b. cbv zeta.
  split; [exact Hscan|]. split; [exact Hb|].
  set (listed := Js.str_or (ListBlobsOptions.prefix options) "") in *.
  set (d := effectiveDelimiter delimiter) in *.
  unfold isBlobItem, virtualPrefix, delimiterPos in *.
  destruct (indexOf_spec (BlobModel.name b) d (Js.length listed))
    as [[Hnone _]|(i & Hi & Hstart & Hocc & _)].
  { rewrite Hnone in Hkind. discriminate. }
  rewrite Hi. replace (Z.of_nat i + 1) with (Z.of_nat (i + 1)) by lia.
  rewrite substr_from_start.
  assert (Hlt : (i < String.length (BlobModel.name b))%nat).
  { apply skip_nonempty_lt. intros He. rewrite He in Hocc.
    pose proof (effectiveDelimiter_nonempty delimiter) as Hne. fold d in Hne.
    destruct d; [congruence|discriminate]. }
  split; [apply substring_is_prefix|].
  intros Hlisted. pose proof (prefix_length _ _ Hlisted) as Hle.
  unfold Js.length in Hstart. rewrite Nat2Z.id in Hstart.
  split.
  - apply prefix_substring_le; [exact Hlisted|lia].
  - rewrite substring_length_le by lia. lia.
Qed.

Lemma filter_keeps_all (P : BlobModel.t -> Prop)
    `{forall b, Decision (P b)} (l : list BlobModel.t) :
  (forall b, b ∈ l -> P b) -> filter P l = l.
Proof.
  induction l as [|b l IH]; intros Hall; [reflexivity|].
  rewrite filter_cons, decide_True by (apply Hall; left).
  f_equal. apply IH. intros b' Hb'. apply Hall. right. exact Hb'.
Qed.

(** A page without any delimiter after the listing prefix is a flat
    page: every scanned blob is an item, in scan order, and there is no
    prefix. *)
Theorem hierarchy_without_delimiter_is_flat
    delimiter options context w r w' :
  listBlobHierarchySegment env delimiter options context w
    = (Returned r, w') ->
  exists s1 blobs nextMarker,
    metadataStore env (hierarchyScan options context) s1
      = (Returned (blobs, nextMarker), store w')
    /\ ((forall b, b ∈ blobs ->
           Js.indexOf (BlobModel.name b) (effectiveDelimiter delimiter)
             (Js.length (Js.str_or (ListBlobsOptions.prefix options) ""))
           = -1) ->
        ListBlobsResponse.blobItems r = map normalizeDeleted blobs
        /\ ListBlobsResponse.blobPrefixes r = Some []).
Proof.
  intros Hrun.
  destruct (hierarchy_grouping env _ _ _ _ _ _ Hrun)
    as (s1 & blobs & nextMarker & prefixes
        & Hscan & _ & Hitems & Hprefixes & _ & Hmem).
  exists s1, blobs, nextMarker. split; [exact Hscan|].
  intros Hnone. cbv zeta in *. split.
  - rewrite Hitems. f_equal. apply filter_keeps_all.
    intros b Hb. unfold isBlobItem, delimiterPos.
    rewrite (Hnone b Hb). reflexivity.
  - rewrite Hprefixes. f_equal.
    destruct prefixes as [|p ps]; [reflexivity|].
    destruct (proj1 (Hmem p)) as (b & Hb & Hkind & _); [left|].
    unfold isBlobItem, delimiterPos in Hkind.
    rewrite (Hnone b Hb) in Hkind. discriminate.
Qed.
End PrefixProgress.

(* ===================================================================== *)
(** ** Failures of the store *)
(* ===================================================================== *)

Section StoreFailures.
Context {S : Type} (env : Env S).

(** A listing stops at the first store call that fails and throws what
    the store threw: when the container check fails no scan is asked
    for, and when the scan fails there is no page. *)
Theorem listing_propagates_store_failure delimiter options context w e :
  (forall s1,
     metadataStore env (existenceCheck context) (store w) = (Threw e, s1) ->
     let stopped :=
       mkWorld s1 (issued w) (trace w ++ [CallStore (existenceCheck context)])
     in
     ContainerHandler.listBlobFlatSegment env options context w
       = (Threw e, stopped)
     /\ ContainerHandler.listBlobHierarchySegment env delimiter options
          context w = (Threw e, stopped))
  /\ (forall s1 s2,
        metadataStore env (existenceCheck context) (store w)
          = (Returned tt, s1) ->
        (metadataStore env (flatScan options context) s1 = (Threw e, s2) ->
         ContainerHandler.listBlobFlatSegment env options context w
           = (Threw e,
              mkWorld s2 (issued w)
                (trace w ++ [CallStore (existenceCheck context);
                             CallStore (flatScan options context)])))
        /\ (metadataStore env (hierarchyScan options context) s1
              = (Threw e, s2) ->
            ContainerHandler.listBlobHierarchySegment env delimiter options
              context w
            = (Threw e,
               mkWorld s2 (issued w)
                 (trace w ++ [CallStore (existenceCheck context);
                              CallStore (hierarchyScan options context)])))).
Proof.
  unfold existenceCheck, flatScan, hierarchyScan. split.
  - intros s1 Hcheck. cbv zeta.
    unfold ContainerHandler.listBlobFlatSegment,
      ContainerHandler.listBlobHierarchySegment.
    run_handler. rewrite Hcheck. split; reflexivity.
  - intros s1 s2 Hcheck. split; intros Hscan.
    + unfold ContainerHandler.listBlobFlatSegment. run_handler.
      rewrite Hcheck. simpl. rewrite Hscan. simpl.
      rewrite <- app_assoc. reflexivity.
    + unfold ContainerHandler.listBlobHierarchySegment. run_handler.
      rewrite Hcheck. simpl. rewrite Hscan. simpl.
      rewrite <- app_assoc. reflexivity.
Qed.

(** A container mutation that the store refuses throws what the store
    threw: no response is made up, and the store was called once, with
    the etag drawn for this call. *)
Theorem mutation_propagates_store_failure m context w :
  exists c,
    targets m c
    /\ stampOf c = Some (etagOf env (issued w), Context.startTime context)
    /\ forall e s',
         metadataStore env c (store w) = (Threw e, s') ->
         mutate env m context w
         = (Threw e,
            mkWorld s' (Datatypes.S (issued w)) (trace w ++ [CallStore c])).
Proof.
  destruct m as [o|o|o]; unfold mutate, mbind, M_bind, bind.
  - exists (createContainer
              (createdContainer o context (etagOf env (issued w)))).
    split; [exact I|]. split; [reflexivity|]. intros e s' Hstore.
    pose proof (create_run env o context w) as Hrun. cbv zeta in Hrun.
    rewrite Hrun, Hstore. reflexivity.
  - eexists (setContainerMetadata _ _ _ _ _).
    split; [exact I|]. split; [reflexivity|]. intros e s' Hstore.
    pose proof (setMetadata_run env o context w) as Hrun. cbv zeta in Hrun.
    rewrite Hrun, Hstore. reflexivity.
  - exists (setContainerACL (Context.account context)
              (Context.container context)
              (ContainerACL.mk (Context.startTime context)
                 (etagOf env (issued w))
                 (ContainerHandler.SetAccessPolicyOptions.access o)
                 (ContainerHandler.SetAccessPolicyOptions.containerAcl o)
                 (ContainerHandler.SetAccessPolicyOptions.leaseAccessConditions
                    o))).
    split; [exact I|]. split; [reflexivity|]. intros e s' Hstore.
    pose proof (setAccessPolicy_run env o context w) as Hrun.
    cbv zeta in Hrun.
    rewrite Hrun, Hstore. reflexivity.
Qed.

(** A maxresults of 0 counts as missing.  The container listing asks
    the store for 2000 containers; a blob listing reports a page size
    of 5000 although it asked the store for a page of 0. *)
Theorem zero_maxresults_is_treated_as_missing :
  (forall options context w,
     ServiceHandler.ListContainersOptions.maxresults options = Some 0 ->
     exists prefix marker,
       trace (snd (ServiceHandler.listContainersSegment env options
                     context w))
       = trace w ++ [CallStore (listContainers (Context.account context)
                                  prefix 2000 marker)])
  /\ (forall delimiter options context w r w',
        ContainerHandler.ListBlobsOptions.maxresults options = Some 0 ->
        ContainerHandler.listBlobFlatSegment env options context w
          = (Returned r, w')
        \/ ContainerHandler.listBlobHierarchySegment env delimiter options
             context w = (Returned r, w') ->
        ContainerHandler.ListBlobsResponse.maxResults r = 5000
        /\ exists prefix,
             last (trace w')
             = Some (CallStore
                 (listBlobs (Context.account context)
                    (Context.container context) None prefix (Some 0)
                    (ContainerHandler.ListBlobsOptions.marker options)
                    (ContainerHandler.includesSnapshots
                       (ContainerHandler.ListBlobsOptions.include
                          options))))).
Proof.
  split.
  - intros options context w Hzero.
    pose proof (listContainersSegment_run env options context w) as Hrun.
    cbv zeta in Hrun. rewrite Hrun. clear Hrun. rewrite Hzero.
    exists (Js.str_or (ServiceHandler.ListContainersOptions.prefix options)
              ""),
      (Js.parseInt10
         (Js.str_or (ServiceHandler.ListContainersOptions.marker options)
            "0")).
    change (Js.num_or (Some 0)
              ServiceHandler.LIST_CONTAINERS_MAX_RESULTS_DEFAULT) with 2000.
    destruct (metadataStore env _ (store w)) as [[containers|e] s];
      reflexivity.
  - intros delimiter options context w r w' Hzero [Hflat|Hhier].
    + destruct (listBlobFlatSegment_returned env _ _ _ _ _ Hflat)
        as (s1 & blobs & nextMarker & _ & _ & Htrace & _ & ->).
      simpl. rewrite Hzero. split; [reflexivity|].
      eexists. rewrite Htrace, last_app. unfold flatScan.
      rewrite Hzero. reflexivity.
    + destruct (listBlobHierarchySegment_returned env _ _ _ _ _ _ Hhier)
        as (s1 & blobs & nextMarker & _ & _ & Htrace & _ & ->).
      simpl. rewrite Hzero. split; [reflexivity|].
      eexists. rewrite Htrace, last_app. unfold hierarchyScan.
      rewrite Hzero. reflexivity.
Qed.
End StoreFailures.

(* ===================================================================== *)
(** ** Further properties of the copy source handlers *)
(* ===================================================================== *)

Section CopySourceRuns.
Context {S : Type} (env : Env S).
Import BaseBlobHandler.

Lemma validateCopySource_run copySource sourceAccount context (w : World S) :
  let currentServer :=
    Js.str_or (Context.requestHeaders context !! "Host") "" in
  let probe := withQueryParameter env copySource "comp" "metadata" in
  let fail st msg :=
    Threw (A := unit)
      (Storage (CannotVerifyCopySource (Context.contextID context) st msg)) in
  validateCopySource env copySource sourceAccount context w =
    match newURL env copySource with
    | None =>
        (Threw (Storage (InvalidHeaderValue (Context.contextID context)
                           "x-ms-copy-source" copySource)), w)
    | Some url =>
        if String.eqb currentServer (URL.host url)
        then
          match transport env probe ∅ with
          | None => (Threw (AxiosRejected None), record (HttpGet probe ∅) w)
          | Some response =>
              let status := HttpResponse.status response in
              (if (status =? 200)%Z then Returned tt
               else if (status =? 404)%Z
                    then fail status resourceDoesNotExist
                    else fail status (unwrapMessage env response),
               record (HttpGet probe ∅) w)
          end
        else (fail 404 resourceDoesNotExist, w)
    end.
Proof.
  unfold validateCopySource, NewUriFromCopySource.
  destruct (newURL env copySource) as [url|]; [|reflexivity].
  unfold mbind, M_bind, bind, mret, M_ret, ret. simpl.
  destruct (String.eqb _ (URL.host url)); simpl; [|reflexivity].
  unfold axios_get.
  destruct (transport env _ ∅) as [response|]; [|reflexivity].
  rewrite orb_true_r.
  destruct (HttpResponse.status response =? 200)%Z; [reflexivity|].
  destruct (HttpResponse.status response =? 404)%Z; reflexivity.
Qed.

Lemma getCopySourceContent_run copySource sourceAccount context
    (w : World S) :
  let sourceHeaders :=
    copyHeader context ∅ "x-ms-source-range" (RANGE env) in
  let fail st msg :=
    Threw (A := string)
      (Storage (CannotVerifyCopySource (Context.contextID context) st msg)) in
  let w' := record (HttpGet copySource sourceHeaders) w in
  getCopySourceContent env copySource sourceAccount context w =
    match transport env copySource sourceHeaders with
    | None => (Threw (AxiosRejected None), w')
    | Some response =>
        let status := HttpResponse.status response in
        (if (200 <=? status)%Z && (status <? 300)%Z
         then Returned (HttpResponse.data response)
         else if (status =? 404)%Z
              then fail status resourceDoesNotExist
              else fail status (unwrapMessage env response),
         w')
    end.
Proof.
  unfold getCopySourceContent.
  unfold mbind, M_bind, bind, mret, M_ret, ret, axios_get.
  destruct (transport env copySource _) as [response|]; [|reflexivity].
  rewrite orb_true_r.
  destruct (_ && _); [reflexivity|].
  destruct (HttpResponse.status response =? 404)%Z; reflexivity.
Qed.

Lemma strip_newlines_idempotent s :
  Js.strip_newlines (Js.strip_newlines s) = Js.strip_newlines s.
Proof.
  induction s as [|c s IH]; [reflexivity|]. simpl.
  destruct (Ascii.eqb c "010") eqn:Hc; [exact IH|].
  simpl. rewrite Hc, IH. reflexivity.
Qed.

Lemma unwrapMessage_one_line response :
  Js.strip_newlines (unwrapMessage env response) = unwrapMessage env response.
Proof.
  unfold unwrapMessage. case_bool_decide; [|reflexivity].
  destruct (parseXML env _ !! "Message") as [m|]; [|reflexivity].
  apply strip_newlines_idempotent.
Qed.

(** Whatever the source and whatever the network answers, a
    CannotVerifyCopySource thrown by [validateCopySource] carries the id
    of the request, a status other than 200 and a message without any
    line feed (stripping line feeds leaves it unchanged). *)
Theorem copy_source_failure_is_well_formed
    copySource sourceAccount context (w : World S) requestID status message :
  fst (validateCopySource env copySource sourceAccount context w)
    = Threw (Storage (CannotVerifyCopySource requestID status message)) ->
  requestID = Context.contextID context
  /\ status <> 200
  /\ Js.strip_newlines message = message.
Proof.
  pose proof (validateCopySource_run copySource sourceAccount context w)
    as Hrun. cbv zeta in Hrun. rewrite Hrun. clear Hrun.
  destruct (newURL env copySource) as [url|]; [|discriminate].
  destruct (String.eqb _ (URL.host url)).
  - destruct (transport env _ ∅) as [response|]; [|discriminate]. simpl.
    destruct (HttpResponse.status response =? 200)%Z eqn:H200;
      [discriminate|].
    apply Z.eqb_neq in H200.
    destruct (HttpResponse.status response =? 404)%Z;
      intros H; inversion H; subst; clear H;
      (split; [reflexivity|]); (split; [exact H200|]).
    + reflexivity.
    + apply unwrapMessage_one_line.
  - simpl. intros H. inversion H; subst; clear H.
    split; [reflexivity|]. split; [discriminate|reflexivity].
Qed.

(** [validateCopySource] never touches the store nor the etag
    generator, and sends at most one request, the metadata probe of the
    source, without headers.  It returns only when the source parsed, its
    host is the request's host, and the probe was answered with 200. *)
Theorem validateCopySource_sends_at_most_one_probe
    copySource sourceAccount context (w : World S) :
  let out := validateCopySource env copySource sourceAccount context w in
  let probe :=
    HttpGet (withQueryParameter env copySource "comp" "metadata") ∅ in
  store (snd out) = store w
  /\ issued (snd out) = issued w
  /\ (trace (snd out) = trace w \/ trace (snd out) = trace w ++ [probe])
  /\ (fst out = Returned tt ->
      trace (snd out) = trace w ++ [probe]
      /\ (exists url,
            newURL env copySource = Some url
            /\ URL.host url
               = Js.str_or (Context.requestHeaders context !! "Host") "")
      /\ exists response,
           transport env (withQueryParameter env copySource "comp" "metadata")
             ∅ = Some response
           /\ HttpResponse.status response = 200).
Proof.
  intros out probe. subst out probe.
  pose proof (validateCopySource_run copySource sourceAccount context w)
    as Hrun. cbv zeta in Hrun. rewrite Hrun. clear Hrun.
  destruct (newURL env copySource) as [url|].
  2:{ simpl; split; [reflexivity|]; split; [reflexivity|];
      split; [auto|discriminate]. }
  destruct (String.eqb _ (URL.host url)) eqn:Hhost.
  2:{ simpl; split; [reflexivity|]; split; [reflexivity|];
      split; [auto|discriminate]. }
  apply String.eqb_eq in Hhost.
  destruct (transport env _ ∅) as [response|].
  2:{ simpl; split; [reflexivity|]; split; [reflexivity|];
      split; [auto|discriminate]. }
  simpl. split; [reflexivity|]. split; [reflexivity|]. split; [auto|].
  destruct (HttpResponse.status response =? 200)%Z eqn:H200.
  - apply Z.eqb_eq in H200. intros _. split; [reflexivity|].
    split; [exists url; auto|exists response; auto].
  - destruct (HttpResponse.status response =? 404)%Z; discriminate.
Qed.

(** The content fetch sends one GET, to the source itself, and forwards
    nothing of the request but its [x-ms-source-range] header, under the
    name of the range header; it touches neither the store nor the etag
    generator. *)
Theorem content_fetch_forwards_only_range
    copySource sourceAccount context (w : World S) :
  let out := getCopySourceContent env copySource sourceAccount context w in
  exists sent,
    trace (snd out) = trace w ++ [HttpGet copySource sent]
    /\ store (snd out) = store w
    /\ issued (snd out) = issued w
    /\ (forall name value,
          sent !! name = Some value ->
          name = RANGE env
          /\ Context.requestHeaders context !! "x-ms-source-range"
             = Some value)
    /\ (forall value,
          Context.requestHeaders context !! "x-ms-source-range" = Some value ->
          sent !! RANGE env = Some value).
Proof.
  intros out. subst out.
  pose proof (getCopySourceContent_run copySource sourceAccount context w)
    as Hrun. cbv zeta in Hrun. rewrite Hrun. clear Hrun.
  exists (copyHeader context ∅ "x-ms-source-range" (RANGE env)).
  split; [|split; [|split]].
  - destruct (transport env copySource _); reflexivity.
  - destruct (transport env copySource _); reflexivity.
  - destruct (transport env copySource _); reflexivity.
  - unfold copyHeader.
    destruct (Context.requestHeaders context !! "x-ms-source-range")
      as [v|]; split.
    + intros name value Hsent.
      apply lookup_insert_Some in Hsent as [[<- <-]|[_ Hsent]]; [auto|].
      rewrite lookup_empty in Hsent. discriminate.
    + intros value Hv. inversion Hv; subst. apply lookup_insert_eq.
    + intros name value Hsent. rewrite lookup_empty in Hsent. discriminate.
    + discriminate.
Qed.

End CopySourceRuns.

(* ===================================================================== *)
(** ** The marker of a container listing *)
(* ===================================================================== *)

Section ContainerMarker.
Context {S : Type} (env : Env S).
Import ServiceHandler.

Lemma digit_of_pretty_N_char x :
  (x < 10)%N -> Js.digit_of (pretty_N_char x) = Some (Z.of_N x).
Proof.
  intros Hx.
  assert (x = 0 \/ x = 1 \/ x = 2 \/ x = 3 \/ x = 4 \/ x = 5 \/ x = 6
          \/ x = 7 \/ x = 8 \/ x = 9)%N as Hcases by lia.
  repeat (destruct Hcases as [->|Hcases]; [reflexivity|]).
  subst. reflexivity.
Qed.

(** A decimal digit starts a number: no white space to skip, no sign. *)
Lemma parseInt10_digit_start c s d :
  Js.digit_of c = Some d ->
  Js.parseInt10 (String c s) = Js.digits (String c s) None.
Proof.
  destruct c as [[] [] [] [] [] [] [] []]; intros H; cbv in H;
    try discriminate H; reflexivity.
Qed.

Lemma pretty_N_go_digits x s :
  (0 < x)%N ->
  Js.digits (pretty_N_go x s) None = Js.digits s (Some (Z.of_N x))
  /\ exists c rest d,
       pretty_N_go x s = String c rest /\ Js.digit_of c = Some d.
Proof.
  revert s. induction (N.lt_wf_0 x) as [x _ IH]; intros s Hx.
  rewrite pretty_N_go_step by exact Hx.
  pose proof (digit_of_pretty_N_char (x `mod` 10)
                (N.mod_lt x 10 ltac:(discriminate))) as Hdigit.
  destruct (N.eq_0_gt_0_cases (x `div` 10)) as [Hzero|Hpos].
  - rewrite Hzero, pretty_N_go_0. split.
    + cbn [Js.digits]. rewrite Hdigit. simpl. f_equal. f_equal.
      pose proof (N.div_mod x 10 ltac:(discriminate)). lia.
    + eauto.
  - destruct (IH (x `div` 10)%N
                (N.div_lt x 10 Hx ltac:(reflexivity))
                (String (pretty_N_char (x `mod` 10)) s) Hpos)
      as (Hvalue & Hhead).
    split; [|exact Hhead].
    rewrite Hvalue. cbn [Js.digits]. rewrite Hdigit. simpl. f_equal. f_equal.
    pose proof (N.div_mod x 10 ltac:(discriminate)). lia.
Qed.

(** Reading back a number written in decimal gives the number. *)
Lemma parseInt10_pretty (k : Z) : Js.parseInt10 (pretty k) = Some k.
Proof.
  destruct k as [|p|p]; [reflexivity| |].
  - change (pretty (Z.pos p)) with (pretty_N_go (N.pos p) "").
    destruct (pretty_N_go_digits (N.pos p) "" ltac:(reflexivity))
      as (Hvalue & c & rest & d & Hshape & Hdigit).
    rewrite Hshape, (parseInt10_digit_start _ _ _ Hdigit), <- Hshape.
    rewrite Hvalue. reflexivity.
  - change (pretty (Z.neg p))
      with (String "-" (pretty_N_go (N.pos p) "")).
    unfold Js.parseInt10. cbn [Js.trim_start]. 
    change (Js.is_space "-") with false. cbv iota.
    destruct (pretty_N_go_digits (N.pos p) "" ltac:(reflexivity))
      as (Hvalue & _).
    rewrite Hvalue. reflexivity.
Qed.

(** The marker of a container listing survives a round trip through the
    client.  When the store hands out a next marker that the response
    can carry exactly (a JavaScript safe integer), the [nextMarker] of
    the response, sent back as the [marker] of the following request,
    reaches the store as that same number; when the store hands out
    none, [nextMarker] is empty and sending it back starts from 0. *)
Theorem container_marker_round_trip
    options context w r w' options' context' :
  listContainersSegment env options context w = (Returned r, w') ->
  ListContainersOptions.marker options'
    = Some (ListContainersResponse.nextMarker r) ->
  exists prefix maxresults marker items next,
    metadataStore env
      (listContainers (Context.account context) prefix maxresults marker)
      (store w) = (Returned (items, next), store w')
    /\ (ListContainersResponse.nextMarker r = ""%string <->
        next = None \/ next = Some 0)
    /\ (- 2 ^ 53 < default 0 next < 2 ^ 53 ->
        exists prefix' maxresults',
          last (trace (snd (listContainersSegment env options' context' w')))
          = Some (CallStore
                    (listContainers (Context.account context') prefix'
                       maxresults' (Some (default 0 next))))).
Proof.
  intros Hfirst Hmarker.
  pose proof (listContainersSegment_run env options context w) as Hrun.
  cbv zeta in Hrun. rewrite Hrun in Hfirst. clear Hrun.
  eexists _, _, _.
  destruct (metadataStore env _ (store w)) as [[[items next]|e] s] eqn:Hstore;
    [|discriminate].
  inversion Hfirst; subst; clear Hfirst.
  exists items, next. split; [exact Hstore|]. simpl in *.
  assert (Hpos : forall p, exists c rest, pretty (Z.pos p) = String c rest).
  { intros p. change (pretty (Z.pos p)) with (pretty_N_go (N.pos p) "").
    destruct (pretty_N_go_digits (N.pos p) "" ltac:(reflexivity))
      as (_ & c & rest & _ & Hshape & _). eauto. }
  split.
  - destruct next as [[|p|p]|]; simpl.
    + split; auto.
    + destruct (Hpos p) as (c & rest & ->).
      split; [discriminate|intros [H|H]; discriminate H].
    + change (pretty (Z.neg p))
        with (String "-" (pretty_N_go (N.pos p) "")).
      split; [discriminate|intros [H|H]; discriminate H].
    + split; auto.
  - intros _.
    match goal with
    | |- context [listContainersSegment env options' context' ?w1] =>
        pose proof (listContainersSegment_run env options' context' w1)
          as Hrun
    end.
    cbv zeta in Hrun. rewrite Hrun. clear Hrun. rewrite Hmarker.
    assert (Hparse :
      Js.parseInt10 (Js.str_or (Some (markerText next)) "0")
      = Some (default 0 next)).
    { destruct next as [[|p|p]|]; try reflexivity; simpl.
      - destruct (Hpos p) as (c & rest & Hshape).
        rewrite Hshape, <- Hshape. apply parseInt10_pretty.
      - change (pretty (Z.neg p))
          with (String "-" (pretty_N_go (N.pos p) "")).
        change (String "-" (pretty_N_go (N.pos p) ""))
          with (pretty (Z.neg p)).
        apply parseInt10_pretty. }
    rewrite Hparse. eexists _, _.
    match goal with
    | |- context [metadataStore env ?c ?st] =>
        destruct (metadataStore env c st) as [[containers|e] s2]
    end; simpl; rewrite last_app; reflexivity.
Qed.
End ContainerMarker.

(* ===================================================================== *)
(** ** Reading back what was written *)
(* ===================================================================== *)

Section ReadBack.
Context {S : Type} (env : Env S)
  (reads : forall q : StoreQuery, S -> Outcome (Answer q) * S).
Import ContainerHandler.

(** On a store that gives back the access policy it was given, what
    [setAccessPolicy] wrote is what [getAccessPolicy] reads: the signed
    identifiers in the order they were set (none when none was set), the
    public access level, and the etag and modification time that the
    response of [setAccessPolicy] announced. *)
Theorem access_policy_round_trip
    options context w r w' conditions context' :
  (forall account container acl s s' cond,
     metadataStore env (setContainerACL account container acl) s
       = (Returned tt, s') ->
     exists p,
       reads (getContainerACL account container cond) s'
         = (Returned (ContainerACLResponse.mk p
                        (ContainerACL.containerAcl acl)), s')
       /\ ContainerProperties.etag p = ContainerACL.etag acl
       /\ ContainerProperties.lastModified p = ContainerACL.lastModified acl
       /\ ContainerProperties.publicAccess p
          = ContainerACL.publicAccess acl) ->
  setAccessPolicy env options context w = (Returned r, w') ->
  Context.account context' = Context.account context ->
  Context.container context' = Context.container context ->
  exists r',
    ContainerReads.getAccessPolicy env reads conditions context' w'
      = (Returned r', w')
    /\ ContainerReads.GetAccessPolicyResponse.identifiers r'
       = default [] (SetAccessPolicyOptions.containerAcl options)
    /\ ContainerReads.GetAccessPolicyResponse.eTag r'
       = SetAccessPolicyResponse.eTag r
    /\ ContainerReads.GetAccessPolicyResponse.lastModified r'
       = SetAccessPolicyResponse.lastModified r
    /\ ContainerReads.GetAccessPolicyResponse.date r'
       = SetAccessPolicyResponse.lastModified r
    /\ ContainerReads.GetAccessPolicyResponse.blobPublicAccess r'
       = SetAccessPolicyOptions.access options
    /\ ContainerReads.GetAccessPolicyResponse.statusCode r' = 200.
Proof.
  intros Hlaw Hset Haccount Hcontainer.
  pose proof (setAccessPolicy_run env options context w) as Hrun.
  cbv zeta in Hrun. rewrite Hrun in Hset. clear Hrun.
  destruct (metadataStore env _ (store w)) as [[[]|e] s] eqn:Hstore;
    [|discriminate].
  inversion Hset; subst r w'; clear Hset.
  destruct (Hlaw _ _ _ _ _ conditions Hstore)
    as (p & Hread & Hetag & Hmodified & Haccess).
  unfold ContainerReads.getAccessPolicy, ContainerReads.callStoreReads.
  unfold mbind, M_bind, bind, mret, M_ret, ret. simpl.
  rewrite Haccount, Hcontainer, Hread. simpl.
  eexists. split; [reflexivity|]. simpl.
  rewrite Hetag, Hmodified, Haccess. simpl.
  repeat split.
Qed.

(** On a store that gives back the container it was given, a created
    container reads back as created: [getProperties] returns the etag
    and modification time announced by [create], an available and
    unlocked lease, no immutability policy and no legal hold, and the
    access level and metadata of the create request. *)
Theorem created_container_reads_back options context w r w' context' :
  (forall c s s',
     metadataStore env (createContainer c) s = (Returned tt, s') ->
     reads (getContainerProperties (ContainerModel.accountName c)
              (ContainerModel.name c)) s'
     = (Returned (ContainerPropertiesResponse.mk
                    (ContainerModel.properties c)
                    (ContainerModel.metadata c)), s')) ->
  create env options context w = (Returned r, w') ->
  Context.account context' = Context.account context ->
  Context.container context' = Context.container context ->
  exists r',
    ContainerReads.getProperties env reads context' w' = (Returned r', w')
    /\ ContainerReads.GetPropertiesResponse.eTag r' = CreateResponse.eTag r
    /\ ContainerReads.GetPropertiesResponse.statusCode r' = 200
    /\ ContainerReads.GetPropertiesResponse.blobPublicAccess r'
       = CreateOptions.access options
    /\ ContainerReads.GetPropertiesResponse.metadata r'
       = CreateOptions.metadata options
    /\ let p := ContainerReads.GetPropertiesResponse.properties r' in
       ContainerProperties.etag p = CreateResponse.eTag r
       /\ ContainerProperties.lastModified p = CreateResponse.lastModified r
       /\ ContainerProperties.leaseState p = Available
       /\ ContainerProperties.leaseStatus p = Unlocked
       /\ ContainerProperties.hasImmutabilityPolicy p = false
       /\ ContainerProperties.hasLegalHold p = false.
Proof.
  intros Hlaw Hcreate Haccount Hcontainer.
  pose proof (create_run env options context w) as Hrun.
  cbv zeta in Hrun. rewrite Hrun in Hcreate. clear Hrun.
  destruct (metadataStore env _ (store w)) as [[[]|e] s] eqn:Hstore;
    [|discriminate].
  inversion Hcreate; subst r w'; clear Hcreate.
  pose proof (Hlaw _ _ _ Hstore) as Hread. simpl in Hread.
  unfold ContainerReads.getProperties, ContainerReads.callStoreReads.
  unfold mbind, M_bind, bind, mret, M_ret, ret. simpl.
  rewrite Haccount, Hcontainer, Hread. simpl.
  eexists. split; [reflexivity|]. simpl. repeat split.
Qed.
End ReadBack.

(* ===================================================================== *)
(** ** The further properties at concrete requests *)
(* ===================================================================== *)

(** The album listed under [photos/]: one item, one prefix. *)
Lemma hierarchy_page_accounts_for_scan_witness :
  exists r w',
    ContainerHandler.listBlobHierarchySegment
      (Fixture.env Scenes.album None None) "/" Scenes.underPhotos
      Fixture.context Fixture.world = (Returned r, w')
    /\ exists prefixes,
         ContainerHandler.ListBlobsResponse.blobPrefixes r = Some prefixes
         /\ (length (ContainerHandler.ListBlobsResponse.blobItems r)
             + length prefixes <= 3)%nat.
Proof.
  eexists _, _. split; [lazy; reflexivity|].
  destruct (hierarchy_page_accounts_for_scan
              (Fixture.env Scenes.album None None) "/" Scenes.underPhotos
              Fixture.context Fixture.world _ _ eq_refl)
    as (s1 & blobs & nextMarker & prefixes & Hscan & Hprefixes
        & _ & _ & _ & Hlen).
  exists prefixes. split; [exact Hprefixes|].
  inversion Hscan; subst blobs. exact Hlen.
Defined.

Lemma hierarchy_single_character_delimiter_witness :
  exists r w' prefixes,
    ContainerHandler.listBlobHierarchySegment
      (Fixture.env Scenes.album None None) "" Scenes.underPhotos
      Fixture.context Fixture.world = (Returned r, w')
    /\ ContainerHandler.ListBlobsResponse.blobPrefixes r = Some prefixes
    /\ NoDup prefixes
    /\ forall p item,
         p ∈ prefixes ->
         item ∈ ContainerHandler.ListBlobsResponse.blobItems r ->
         String.prefix p (BlobModel.name item) = false.
Proof.
  eexists _, _, _. split; [lazy; reflexivity|]. split; [reflexivity|].
  destruct (hierarchy_single_character_delimiter
              (Fixture.env Scenes.album None None) "" Scenes.underPhotos
              Fixture.context Fixture.world _ _ eq_refl eq_refl)
    as (prefixes & Hprefixes & Hnodup & Hall).
  inversion Hprefixes; subst prefixes. split; [exact Hnodup|].
  intros p item Hp Hitem. exact (proj2 (Hall p Hp) item Hitem).
Defined.

Lemma hierarchy_prefix_extends_listing_prefix_witness :
  exists r w',
    ContainerHandler.listBlobHierarchySegment
      (Fixture.env Scenes.album None None) "/" Scenes.underPhotos
      Fixture.context Fixture.world = (Returned r, w')
    /\ ContainerHandler.ListBlobsResponse.blobPrefixes r
       = Some ["photos/2019/"]
    /\ exists b,
         String.prefix "photos/2019/" (BlobModel.name b) = true.
Proof.
  eexists _, _. split; [lazy; reflexivity|]. split; [reflexivity|].
  destruct (hierarchy_prefix_extends_listing_prefix
              (Fixture.env Scenes.album None None) "/" Scenes.underPhotos
              Fixture.context Fixture.world _ _ ["photos/2019/"]
              eq_refl eq_refl "photos/2019/" ltac:(left))
    as (s1 & blobs & nextMarker & b & _ & _ & Hb & _).
  exists b. exact Hb.
Defined.

(** The album listed with the delimiter [#], which no name contains. *)
Lemma hierarchy_without_delimiter_is_flat_witness :
  exists r w',
    ContainerHandler.listBlobHierarchySegment
      (Fixture.env Scenes.album None None) "#" Fixture.plain
      Fixture.context Fixture.world = (Returned r, w')
    /\ ContainerHandler.ListBlobsResponse.blobItems r = Scenes.album
    /\ ContainerHandler.ListBlobsResponse.blobPrefixes r = Some [].
Proof.
  eexists _, _. split; [lazy; reflexivity|].
  destruct (hierarchy_without_delimiter_is_flat
              (Fixture.env Scenes.album None None) "#" Fixture.plain
              Fixture.context Fixture.world _ _ eq_refl)
    as (s1 & blobs & nextMarker & Hscan & Hflat).
  inversion Hscan; subst blobs.
  apply Hflat. intros b Hb.
  repeat (apply elem_of_cons in Hb as [->|Hb]; [reflexivity|]).
  inversion Hb.
Defined.

(** A listing of a container that is not there, and a listing whose scan
    is refused. *)
Lemma listing_propagates_store_failure_witness :
  fst (ContainerHandler.listBlobFlatSegment Memory.env Fixture.plain
         Fixture.context Memory.empty)
  = Threw (Storage (StoreFailure "ContainerNotFound" 404))
  /\ fst (ContainerHandler.listBlobHierarchySegment
            (Scenes.env (Threw Scenes.busy) None None) "/" Fixture.plain
            Fixture.context Fixture.world)
     = Threw Scenes.busy.
Proof.
  split.
  - rewrite (proj1 (proj1 (listing_propagates_store_failure Memory.env "/"
                             Fixture.plain Fixture.context Memory.empty
                             (Storage (StoreFailure "ContainerNotFound" 404)))
                      None eq_refl)).
    reflexivity.
  - rewrite (proj2 (proj2 (listing_propagates_store_failure
                             (Scenes.env (Threw Scenes.busy) None None) "/"
                             Fixture.plain Fixture.context Fixture.world
                             Scenes.busy)
                      tt tt eq_refl) eq_refl).
    reflexivity.
Defined.

(** Metadata set on a container that is not there. *)
Lemma mutation_propagates_store_failure_witness :
  fst (mutate Memory.env
         (SetMetadata (ContainerHandler.SetMetadataOptions.mk None))
         Fixture.context Memory.empty)
  = Threw (Storage (StoreFailure "ContainerNotFound" 404)).
Proof.
  destruct (mutation_propagates_store_failure Memory.env
              (SetMetadata (ContainerHandler.SetMetadataOptions.mk None))
              Fixture.context Memory.empty) as (c & Htarget & _ & Hfail).
  destruct c; try contradiction.
  rewrite (Hfail (Storage (StoreFailure "ContainerNotFound" 404)) None
             eq_refl).
  reflexivity.
Defined.

Lemma zero_maxresults_is_treated_as_missing_witness :
  (exists prefix marker,
     trace (snd (ServiceHandler.listContainersSegment Fixture.quiet
                   (ServiceHandler.ListContainersOptions.mk None None
                      (Some 0))
                   Fixture.context Fixture.world))
     = [CallStore (listContainers "devstoreaccount1" prefix 2000 marker)])
  /\ exists r w',
       ContainerHandler.listBlobFlatSegment Fixture.quiet
         (ContainerHandler.ListBlobsOptions.mk None None (Some 0) None)
         Fixture.context Fixture.world = (Returned r, w')
       /\ ContainerHandler.ListBlobsResponse.maxResults r = 5000.
Proof.
  split.
  - exact (proj1 (zero_maxresults_is_treated_as_missing Fixture.quiet)
             (ServiceHandler.ListContainersOptions.mk None None (Some 0))
             Fixture.context Fixture.world eq_refl).
  - eexists _, _. split; [lazy; reflexivity|].
    exact (proj1 (proj2 (zero_maxresults_is_treated_as_missing Fixture.quiet)
                    "" (ContainerHandler.ListBlobsOptions.mk None None
                          (Some 0) None)
                    Fixture.context Fixture.world _ _ eq_refl
                    (or_introl eq_refl))).
Defined.

(** The failure of the probe answered with 403. *)
Lemma copy_source_failure_is_well_formed_witness :
  Js.strip_newlines
    "Server failed to authenticate the request.Check the Authorization header."
  = "Server failed to authenticate the request.Check the Authorization header."%string.
Proof.
  refine (proj2 (proj2 (copy_source_failure_is_well_formed
                          (Fixture.env [] None (Some Fixture.forbidden))
                          Fixture.sameHost "devstoreaccount1" Fixture.context
                          Fixture.world "req-1" 403 _ _))).
  vm_compute. reflexivity.
Defined.

(** A source on the request's host whose probe is answered with 200. *)
Lemma validateCopySource_sends_at_most_one_probe_witness :
  trace (snd (BaseBlobHandler.validateCopySource
                (Fixture.env [] None (Some Scenes.ok))
                Fixture.sameHost "devstoreaccount1" Fixture.context
                Fixture.world))
  = [HttpGet
       "http://127.0.0.1:10000/devstoreaccount1/pics/a.jpg?comp=metadata" ∅].
Proof.
  refine (proj1 (proj2 (proj2 (proj2
            (validateCopySource_sends_at_most_one_probe
               (Fixture.env [] None (Some Scenes.ok))
               Fixture.sameHost "devstoreaccount1" Fixture.context
               Fixture.world))) _)).
  vm_compute. reflexivity.
Defined.

(** A ranged copy: the range goes out, the authorization does not. *)
Lemma content_fetch_forwards_only_range_witness :
  exists sent,
    trace (snd (BaseBlobHandler.getCopySourceContent
                  (Fixture.env [] None (Some Scenes.partialContent))
                  Fixture.sameHost "devstoreaccount1" Scenes.rangeContext
                  Fixture.world))
    = [HttpGet Fixture.sameHost sent]
    /\ sent !! "Range" = Some "bytes=0-9"%string
    /\ sent !! "Authorization" = None.
Proof.
  destruct (content_fetch_forwards_only_range
              (Fixture.env [] None (Some Scenes.partialContent))
              Fixture.sameHost "devstoreaccount1" Scenes.rangeContext
              Fixture.world)
    as (sent & Htrace & _ & _ & Honly & Hrange).
  exists sent. split; [exact Htrace|]. split.
  - apply Hrange. vm_compute. reflexivity.
  - destruct (sent !! "Authorization") as [v|] eqn:Hv; [|reflexivity].
    destruct (Honly _ _ Hv) as [Hname _]. discriminate Hname.
Defined.


(** A store that hands out the next marker 5. *)
Lemma container_marker_round_trip_witness :
  exists r w',
    ServiceHandler.listContainersSegment
      (Scenes.env (Returned ([], None)) (Some 5) None)
      (ServiceHandler.ListContainersOptions.mk None None None)
      Fixture.context Fixture.world = (Returned r, w')
    /\ ServiceHandler.ListContainersResponse.nextMarker r = "5"%string
    /\ exists prefix maxresults,
         last (trace (snd (ServiceHandler.listContainersSegment
                             (Scenes.env (Returned ([], None)) (Some 5) None)
                             (ServiceHandler.ListContainersOptions.mk None
                                (Some "5") None)
                             Fixture.context w')))
         = Some (CallStore (listContainers "devstoreaccount1" prefix
                              maxresults (Some 5))).
Proof.
  eexists _, _. split; [lazy; reflexivity|]. split; [reflexivity|].
  destruct (container_marker_round_trip
              (Scenes.env (Returned ([], None)) (Some 5) None)
              (ServiceHandler.ListContainersOptions.mk None None None)
              Fixture.context Fixture.world _ _
              (ServiceHandler.ListContainersOptions.mk None (Some "5") None)
              Fixture.context eq_refl eq_refl)
    as (prefix & maxresults & marker & items & next & Hstore & _ & Hnext).
  inversion Hstore; subst next.
  apply Hnext. simpl. lia.
Defined.

Lemma memory_keeps_access_policy account container acl s s' cond :
  Memory.store (setContainerACL account container acl) s = (Returned tt, s') ->
  exists p,
    Memory.reads (getContainerACL account container cond) s'
      = (Returned (ContainerACLResponse.mk p (ContainerACL.containerAcl acl)),
         s')
    /\ ContainerProperties.etag p = ContainerACL.etag acl
    /\ ContainerProperties.lastModified p = ContainerACL.lastModified acl
    /\ ContainerProperties.publicAccess p = ContainerACL.publicAccess acl.
Proof.
  destruct s as [k|]; simpl; intros H; inversion H; subst; clear H.
  eexists. split; [reflexivity|]. repeat split.
Defined.

Lemma memory_keeps_container c s s' :
  Memory.store (createContainer c) s = (Returned tt, s') ->
  Memory.reads (getContainerProperties (ContainerModel.accountName c)
                  (ContainerModel.name c)) s'
  = (Returned (ContainerPropertiesResponse.mk (ContainerModel.properties c)
                 (ContainerModel.metadata c)), s').
Proof.
  destruct s as [k|]; simpl; intros H; inversion H; subst; clear H.
  reflexivity.
Defined.

(** A container created, given one signed identifier, and read back. *)
Lemma access_policy_round_trip_witness :
  exists r w1,
    ContainerHandler.create Memory.env
      (ContainerHandler.CreateOptions.mk None None) Fixture.context
      Memory.empty = (Returned r, w1)
    /\ exists r1 w2,
         ContainerHandler.setAccessPolicy Memory.env
           (ContainerHandler.SetAccessPolicyOptions.mk (Some PublicBlob)
              (Some [Memory.oneIdentifier]) None)
           Fixture.context w1 = (Returned r1, w2)
         /\ exists r2,
              ContainerReads.getAccessPolicy Memory.env Memory.reads None
                Fixture.context w2 = (Returned r2, w2)
              /\ ContainerReads.GetAccessPolicyResponse.identifiers r2
                 = [Memory.oneIdentifier]
              /\ ContainerReads.GetAccessPolicyResponse.eTag r2
                 = "0x1"%string
              /\ ContainerReads.GetAccessPolicyResponse.blobPublicAccess r2
                 = Some PublicBlob.
Proof.
  eexists _, _. split; [lazy; reflexivity|].
  eexists _, _.
  lazymatch goal with
  | |- ?run /\ _ => assert (Hset : run) by (lazy; reflexivity)
  end.
  split; [exact Hset|].
  destruct (access_policy_round_trip Memory.env Memory.reads
              (ContainerHandler.SetAccessPolicyOptions.mk (Some PublicBlob)
                 (Some [Memory.oneIdentifier]) None)
              Fixture.context _ _ _ None Fixture.context
              memory_keeps_access_policy Hset eq_refl eq_refl)
    as (r2 & Hread & Hids & Hetag & _ & _ & Haccess & _).
  exists r2. split; [exact Hread|]. split; [exact Hids|].
  split; [exact Hetag|exact Haccess].
Defined.

(** A container created with public access and read back. *)
Lemma created_container_reads_back_witness :
  exists r w1,
    ContainerHandler.create Memory.env
      (ContainerHandler.CreateOptions.mk None (Some PublicContainer))
      Fixture.context Memory.empty = (Returned r, w1)
    /\ exists r1,
         ContainerReads.getProperties Memory.env Memory.reads
           Fixture.context w1 = (Returned r1, w1)
         /\ ContainerReads.GetPropertiesResponse.eTag r1 = "0x0"%string
         /\ ContainerReads.GetPropertiesResponse.blobPublicAccess r1
            = Some PublicContainer.
Proof.
  eexists _, _.
  lazymatch goal with
  | |- ?run /\ _ => assert (Hcreate : run) by (lazy; reflexivity)
  end.
  split; [exact Hcreate|].
  destruct (created_container_reads_back Memory.env Memory.reads
              (ContainerHandler.CreateOptions.mk None (Some PublicContainer))
              Fixture.context Memory.empty _ _ Fixture.context
              memory_keeps_container Hcreate eq_refl eq_refl)
    as (r1 & Hread & Hetag & _ & Haccess & _).
  exists r1. split; [exact Hread|].
  split; [exact Hetag|exact Haccess].
Defined.
